(** * Stock screening pipeline (code/phase_01_stock_screening.py)

    A shallow embedding of the four screening stages and of the pandas and
    Python operations they call, with the properties of the pipeline proved
    over it.

    Numbers.  A float64 cell is modelled as [option Q]: [Some q] is the
    finite number [q], [None] is NaN (pandas' missing marker).  Arithmetic is
    exact rational arithmetic; binary rounding error and infinities are
    outside the model. *)

From Stdlib Require Import List Bool Arith ZArith QArith Qround Lia Lqa.
From Stdlib Require Import String Permutation Sorted SetoidList.
Import ListNotations.

Open Scope Q_scope.

(* ------------------------------------------------------------------ *)
(** ** Python: exceptions and [round] *)

Module Python.

Inductive exn : Type :=
| OSError | ValueError | IndexError | ProviderError.

(** What a call does: it returns a value or raises. *)
Inductive outcome (A : Type) : Type :=
| Returned (a : A)
| Raised (e : exn).
Arguments Returned {A} a.
Arguments Raised {A} e.

Definition bind {A B} (m : outcome A) (k : A -> outcome B) : outcome B :=
  match m with
  | Returned a => k a
  | Raised e => Raised e
  end.

(** [try: m  except Exception: handler] *)
Definition try_except {A} (m : outcome A) (handler : exn -> A) : A :=
  match m with
  | Returned a => a
  | Raised e => handler e
  end.

(** Nearest integer, halves to the even neighbour. *)
Definition round_half_even (x : Q) : Z :=
  let f := Qfloor x in
  let frac := x - inject_Z f in
  match Qcompare frac (1 # 2) with
  | Lt => f
  | Gt => (f + 1)%Z
  | Eq => if Z.even f then f else (f + 1)%Z
  end.

(** [round(x, ndigits)] *)
Definition round (x : Q) (ndigits : nat) : Q :=
  let scale := inject_Z (10 ^ Z.of_nat ndigits) in
  inject_Z (round_half_even (x * scale)) / scale.

(** [l[i]] and [l[-k]] (for [k >= 1]); out of range raises IndexError. *)
Definition iloc {A} (l : list A) (i : nat) : outcome A :=
  match nth_error l i with
  | Some a => Returned a
  | None => Raised IndexError
  end.

Definition iloc_neg {A} (l : list A) (k : nat) : outcome A :=
  if (Nat.leb 1 k && Nat.leb k (length l))%bool
  then iloc l (length l - k) else Raised IndexError.

End Python.

Notation "x <- m ;; k" := (Python.bind m (fun x => k))
  (at level 61, m at next level, right associativity).

(* ------------------------------------------------------------------ *)
(** ** pandas: Series, fillna, rank *)

Module Pandas.

Definition cell := option Q.
Definition Series := list cell.

Definition NaN : cell := None.

Definition Qof (n : nat) : Q := inject_Z (Z.of_nat n).

(** [s.fillna(d)] *)
Definition fillna (d : Q) (s : Series) : Series :=
  map (fun c => match c with Some v => Some v | None => Some d end) s.

(** The valid (non-NaN) values of a series, in order. *)
Fixpoint dropna (s : Series) : list Q :=
  match s with
  | [] => []
  | Some v :: s' => v :: dropna s'
  | None :: s' => dropna s'
  end.

(** Element-wise arithmetic; NaN propagates. *)
Definition lift2 (f : Q -> Q -> Q) (a b : cell) : cell :=
  match a, b with
  | Some x, Some y => Some (f x y)
  | _, _ => None
  end.

Definition smul (s : Series) (k : Q) : Series :=
  map (option_map (fun v => v * k)) s.

Definition ssub (s : Series) (k : Q) : Series :=
  map (option_map (fun v => v - k)) s.

Fixpoint sadd (a b : Series) : Series :=
  match a, b with
  | x :: a', y :: b' => lift2 Qplus x y :: sadd a' b'
  | _, _ => []
  end.

(** Sorting: a stable insertion sort for an order given as a boolean. *)
Section Sort.
Context {A : Type} (le : A -> A -> bool).

Fixpoint insert (x : A) (l : list A) : list A :=
  match l with
  | [] => [x]
  | y :: l' => if le x y then x :: l else y :: insert x l'
  end.

Fixpoint sort (l : list A) : list A :=
  match l with
  | [] => []
  | x :: l' => insert x (sort l')
  end.
End Sort.

(** The order of the sorted pass of [rank]. *)
Definition before (ascending : bool) (x y : Q) : bool :=
  if ascending then Qle_bool x y else Qle_bool y x.

Definition strictly_before (ascending : bool) (x y : Q) : bool :=
  negb (before ascending y x).

(** Sum of the ordinal ranks (positions from [pos] on) that the entries
    equal to [x] occupy in a sorted pass, and how many they are. *)
Fixpoint rank_sum (x : Q) (pos : nat) (sorted : list Q) : nat :=
  match sorted with
  | [] => 0
  | y :: l => ((if Qeq_bool y x then pos else 0) + rank_sum x (S pos) l)%nat
  end.

Fixpoint dups (x : Q) (l : list Q) : nat :=
  match l with
  | [] => 0
  | y :: l' => ((if Qeq_bool y x then 1 else 0) + dups x l')%nat
  end.

(** method='average': a tie group's rank is the mean of the ordinal
    ranks it occupies. *)
Definition average_rank (sorted : list Q) (x : Q) : Q :=
  Qof (rank_sum x 1 sorted) / Qof (dups x sorted).

(** [s.rank(ascending=..., pct=...)] with the defaults method='average',
    na_option='keep': NaN entries stay NaN and are not counted. *)
Definition rank (ascending pct : bool) (s : Series) : Series :=
  let sorted := sort (before ascending) (dropna s) in
  let count := length sorted in
  map (fun c =>
         match c with
         | None => None
         | Some x =>
             let r := average_rank sorted x in
             Some (if pct then r / Qof count else r)
         end) s.

(** How many entries come strictly before [x] in the order. *)
Fixpoint count_before (ascending : bool) (x : Q) (l : list Q) : nat :=
  match l with
  | [] => 0
  | y :: l' =>
      ((if strictly_before ascending y x then 1 else 0)
       + count_before ascending x l')%nat
  end.

End Pandas.

(* ------------------------------------------------------------------ *)
(** ** The screening script *)

Module Screening.
Import Python Pandas.

(** *** Configuration *)

Record Weights : Type := {
  volume_score : Q;
  price_change_score : Q;
  relative_strength_score : Q;
  historical_vol_score : Q;
  options_score : Q;
  short_squeeze_score : Q
}.

Definition SCREENING_WEIGHTS : Weights := {|
  volume_score := 0.20;
  price_change_score := 0.25;
  relative_strength_score := 0.20;
  historical_vol_score := 0.15;
  options_score := 0.10;
  short_squeeze_score := 0.10
|}.

Definition weight_sum (w : Weights) : Q :=
  volume_score w + price_change_score w + relative_strength_score w
  + historical_vol_score w + options_score w + short_squeeze_score w.

(** *** Stage snapshots *)

(** A row of data/03_va_sp500_raw_screening_data.csv. *)
Record RawRow : Type := {
  Ticker : string;
  Historical_Vol : cell;
  Volume_Ratio : cell;
  Avg_Volume_20d : cell;
  Price_Change_1d : cell;
  Price_Change_5d : cell;
  Price_Change_20d : cell;
  Options_Proxy : cell;
  Put_Call_Proxy : cell;
  Short_Ratio : cell;
  Short_Percent : cell
}.

(** A row of data/04_va_sp500_screening_results.csv. *)
Record ScoredRow : Type := {
  raw : RawRow;
  Volume_Score : cell;
  Price_Change_Score : cell;
  Relative_Strength_Score : cell;
  Historical_Vol_Score : cell;
  Options_Score : cell;
  Short_Squeeze_Score : cell;
  Composite_Score : cell;
  Rank : cell
}.

(** The data directory and the four snapshot files. *)
Record FileSystem : Type := {
  data_dir : bool;
  tickers_csv : option (list string);
  filtered_csv : option (list string);
  raw_csv : option (list RawRow);
  results_csv : option (list ScoredRow)
}.

Definition makedirs (fs : FileSystem) : FileSystem :=
  {| data_dir := true; tickers_csv := tickers_csv fs;
     filtered_csv := filtered_csv fs; raw_csv := raw_csv fs;
     results_csv := results_csv fs |}.

(** [os.path.exists] of a snapshot: the file is there. *)
Definition path_exists {A} (fs : FileSystem) (file : option A) : bool :=
  data_dir fs && match file with Some _ => true | None => false end.

(** [to_csv] into the data directory raises when the directory is
    missing. *)
Definition to_csv (fs : FileSystem) (written : FileSystem)
  : outcome FileSystem :=
  if data_dir fs then Returned written else Raised OSError.

Definition write_tickers (l : list string) (fs : FileSystem) :=
  to_csv fs {| data_dir := data_dir fs; tickers_csv := Some l;
               filtered_csv := filtered_csv fs; raw_csv := raw_csv fs;
               results_csv := results_csv fs |}.

Definition write_filtered (l : list string) (fs : FileSystem) :=
  to_csv fs {| data_dir := data_dir fs; tickers_csv := tickers_csv fs;
               filtered_csv := Some l; raw_csv := raw_csv fs;
               results_csv := results_csv fs |}.

Definition write_raw (l : list RawRow) (fs : FileSystem) :=
  to_csv fs {| data_dir := data_dir fs; tickers_csv := tickers_csv fs;
               filtered_csv := filtered_csv fs; raw_csv := Some l;
               results_csv := results_csv fs |}.

Definition write_results (l : list ScoredRow) (fs : FileSystem) :=
  to_csv fs {| data_dir := data_dir fs; tickers_csv := tickers_csv fs;
               filtered_csv := filtered_csv fs; raw_csv := raw_csv fs;
               results_csv := Some l |}.

(** *** Stage 1: the ticker universe *)

(** A table of the listing page: column label and column values. *)
Definition Table := list (string * list string).

Definition has_column (df : Table) (c : string) : bool :=
  existsb (fun p => String.eqb (fst p) c) df.

Definition column (df : Table) (c : string) : list string :=
  match find (fun p => String.eqb (fst p) c) df with
  | Some p => snd p
  | None => []
  end.

(** [read_html] is what [pd.read_html(url)] does. *)
Definition get_sp500_tickers (read_html : outcome (list Table))
  : list string :=
  try_except
    (tables <- read_html ;;
     df <- iloc tables 0 ;;
     col <- (if has_column df "Symbol" then Returned "Symbol"%string
             else if has_column df "Ticker symbol"
                  then Returned "Ticker symbol"%string
                  else Raised ValueError) ;;
     Returned (column df col))
    (fun _ => []).

Definition create_dataframe_with_tickers
  (read_html : outcome (list Table)) (test_mode : bool) (test_count : nat)
  (fs : FileSystem) : outcome FileSystem :=
  let tickers := get_sp500_tickers read_html in
  match tickers with
  | [] => Returned fs
  | _ :: _ =>
      let fs := if data_dir fs then fs else makedirs fs in
      let tickers :=
        if test_mode then firstn test_count tickers else tickers in
      write_tickers tickers fs
  end.

(** *** Stage 2: the net-income filter *)

(** [stock.financials]: the fiscal periods (columns, most recent first, as
    the provider orders them) and the line items (index). *)
Record Financials : Type := {
  columns : list string;
  index : list (string * Series)
}.

Definition in_index (f : Financials) (label : string) : bool :=
  existsb (fun p => String.eqb (fst p) label) (index f).

Definition loc (f : Financials) (label : string) : Series :=
  match find (fun p => String.eqb (fst p) label) (index f) with
  | Some p => snd p
  | None => []
  end.

(** [c > 0] and [a <= b] on float cells: false on NaN. *)
Definition gt0 (c : cell) : bool :=
  match c with
  | Some v => negb (Qle_bool v 0)
  | None => false
  end.

Definition cell_le (a b : cell) : bool :=
  match a, b with
  | Some x, Some y => Qle_bool x y
  | _, _ => false
  end.

(** The body of the loop of [filter_by_net_income], up to the decision to
    append the ticker. *)
Definition net_income_check (financials_df : Financials) : outcome bool :=
  if (negb (in_index financials_df "Net Income")
      || Nat.ltb (length (columns financials_df)) 3)%bool
  then Returned false
  else
    let net_income_series := firstn 3 (loc financials_df "Net Income") in
    let is_positive := forallb gt0 net_income_series in
    oldest <- iloc net_income_series 2 ;;
    middle <- iloc net_income_series 1 ;;
    is_non_decreasing <-
      (if cell_le oldest middle
       then middle <- iloc net_income_series 1 ;;
            newest <- iloc net_income_series 0 ;;
            Returned (cell_le middle newest)
       else Returned false) ;;
    Returned (is_positive && is_non_decreasing)%bool.

Definition keeps (financials : string -> outcome Financials)
  (ticker : string) : bool :=
  try_except (financials_df <- financials ticker ;;
              net_income_check financials_df)
             (fun _ => false).

Definition filter_by_net_income
  (financials : string -> outcome Financials) (fs : FileSystem)
  : outcome FileSystem :=
  if negb (path_exists fs (tickers_csv fs))
  then write_filtered [] fs
  else
    let df := match tickers_csv fs with Some l => l | None => [] end in
    let tickers_to_keep := filter (keeps financials) df in
    write_filtered tickers_to_keep fs.

(** *** Stage 3: the metrics collector *)

(** A daily bar of [stock.history]. *)
Record Bar : Type := { Close : Q; Volume : Z }.

Record OptionChain : Type := {
  calls_volume : Series;
  puts_volume : Series
}.

(** What the market-data provider answers for one ticker: the three
    histories, the two [info] fields the script reads and the option chains
    by expiry, nearest first; the options calls may raise.  An [info] field
    is [Some v] when the key holds the number [v] and [None] when the key is
    absent.  An answer whose key is present and holds Python's None is not
    among these values: there [round(None, 2)] raises and the script returns
    the all-missing bag, as it does for [Raised]. *)
Record TickerData : Type := {
  history_1y : list Bar;
  history_30d : list Bar;
  history_5d : list Bar;
  shortRatio : option Q;
  shortPercentOfFloat : option Q;
  option_chains : outcome (list OptionChain)
}.

(** The [results] dict. *)
Record MetricBag : Type := {
  hist_vol_1y : cell;
  volume_ratio : cell;
  avg_volume_20d : cell;
  change_1d : cell;
  change_5d : cell;
  change_20d : cell;
  options_proxy : cell;
  put_call_proxy : cell;
  short_ratio : cell;
  short_percent : cell
}.

Definition all_missing_bag : MetricBag := {|
  hist_vol_1y := NaN; volume_ratio := NaN; avg_volume_20d := NaN;
  change_1d := NaN; change_5d := NaN; change_20d := NaN;
  options_proxy := NaN; put_call_proxy := NaN;
  short_ratio := NaN; short_percent := NaN
|}.

Definition Qsum (l : list Q) : Q := fold_right Qplus 0 l.

Definition mean (l : list Q) : Q := Qsum l / Qof (length l).

(** [s.rolling(window).mean()]: NaN until [window] entries are seen, then
    the mean of the last [window] entries. *)
Definition rolling_mean (window : nat) (l : list Q) : Series :=
  map (fun seen =>
         if Nat.ltb seen window then NaN
         else Some (mean (firstn window (skipn (seen - window) l))))
      (seq 1 (length l)).

Definition volumes (h : list Bar) : list Q :=
  map (fun b => inject_Z (Volume b)) h.

Definition closes (h : list Bar) : list Q := map Close h.

(** [int(x)]: truncation toward zero; raises on NaN. *)
Definition int (c : cell) : outcome Q :=
  match c with
  | Some v => Returned (inject_Z (Z.quot (Qnum v) (Zpos (Qden v))))
  | None => Raised ValueError
  end.

(** Section 2 of [get_all_screening_metrics]:
    ([volume_ratio], [avg_volume_20d]). *)
Definition volume_metrics (hist_30d : list Bar) : outcome (cell * cell) :=
  if (negb (Nat.eqb (length hist_30d) 0)
      && Nat.leb 20 (length hist_30d))%bool
  then
    current_volume <- iloc_neg (volumes hist_30d) 1 ;;
    avg_volume_20d <- iloc_neg (rolling_mean 20 (volumes hist_30d)) 1 ;;
    let volume_ratio :=
      if gt0 avg_volume_20d
      then lift2 Qdiv (Some current_volume) avg_volume_20d
      else Some 0 in
    avg <- int avg_volume_20d ;;
    Returned (option_map (fun v => round v 2) volume_ratio, Some avg)
  else Returned (NaN, NaN).

(** [round((current - prior) / prior * 100, 2) if prior > 0 else 0] *)
Definition pct_change (current_price prior : Q) : Q :=
  if negb (Qle_bool prior 0)
  then round ((current_price - prior) / prior * 100) 2
  else 0.

(** Section 3: ([change_1d], [change_5d], [change_20d]). *)
Definition price_change_metrics (hist_30d : list Bar)
  : outcome (cell * cell * cell) :=
  let n := length hist_30d in
  if (negb (Nat.eqb n 0) && Nat.leb 21 n)%bool
  then
    current_price <- iloc_neg (closes hist_30d) 1 ;;
    price_1d <- (if Nat.leb 2 n then iloc_neg (closes hist_30d) 2
                 else Returned current_price) ;;
    price_5d <- (if Nat.leb 6 n then iloc_neg (closes hist_30d) 6
                 else Returned current_price) ;;
    price_20d <- (if Nat.leb 21 n then iloc_neg (closes hist_30d) 21
                  else Returned current_price) ;;
    Returned (Some (pct_change current_price price_1d),
              Some (pct_change current_price price_5d),
              Some (pct_change current_price price_20d))
  else Returned (NaN, NaN, NaN).

Definition Qmax (a b : Q) : Q := if Qle_bool a b then b else a.

(** Section 4: ([options_proxy], [put_call_proxy]) before rounding; the
    inner try/except turns a provider error into (None, None). *)
Definition options_metrics (d : TickerData) : cell * cell :=
  try_except
    (expirations <- option_chains d ;;
     match expirations with
     | chain :: _ =>
         let call_volume := Qsum (dropna (fillna 0 (calls_volume chain))) in
         let put_volume := Qsum (dropna (fillna 0 (puts_volume chain))) in
         let total_opt_volume := call_volume + put_volume in
         let hist := history_5d d in
         let avg_stock_volume :=
           if negb (Nat.eqb (length hist) 0) then mean (volumes hist)
           else 1 in
         if negb (Qle_bool total_opt_volume 0)
         then Returned (Some (total_opt_volume / Qmax avg_stock_volume 1),
                        Some (put_volume / Qmax call_volume 1))
         else Returned (Some 0, Some 1)
     | [] => Returned (None, None)
     end)
    (fun _ => (None, None)).

Section Collector.
(** [hist_1y['Log Returns'].std() * np.sqrt(252)] as a function of the
    closes: logarithm and square root are not rational functions, so the
    float they produce is a parameter of the model. *)
Variable annualised_volatility : list Q -> Q.

Definition get_all_screening_metrics (fetch : outcome TickerData)
  : MetricBag :=
  try_except
    (d <- fetch ;;
     let hist_1y := history_1y d in
     let hist_30d := history_30d d in
     let vol :=
       if (negb (Nat.eqb (length hist_1y) 0)
           && Nat.ltb 50 (length hist_1y))%bool
       then Some (round (annualised_volatility (closes hist_1y)) 2)
       else NaN in
     vm <- volume_metrics hist_30d ;;
     pm <- price_change_metrics hist_30d ;;
     let om := options_metrics d in
     Returned {|
       hist_vol_1y := vol;
       volume_ratio := fst vm;
       avg_volume_20d := snd vm;
       change_1d := fst (fst pm);
       change_5d := snd (fst pm);
       change_20d := snd pm;
       options_proxy := option_map (fun v => round v 4) (fst om);
       put_call_proxy := option_map (fun v => round v 4) (snd om);
       short_ratio :=
         Some (round (match shortRatio d with
                      | Some v => v | None => 0 end) 2);
       short_percent :=
         Some (round (match shortPercentOfFloat d with
                      | Some v => v | None => 0 end) 2)
     |})
    (fun _ => all_missing_bag).

Definition metrics_row (market : string -> outcome TickerData)
  (ticker : string) : RawRow :=
  let metrics := get_all_screening_metrics (market ticker) in
  {| Ticker := ticker;
     Historical_Vol := hist_vol_1y metrics;
     Volume_Ratio := volume_ratio metrics;
     Avg_Volume_20d := avg_volume_20d metrics;
     Price_Change_1d := change_1d metrics;
     Price_Change_5d := change_5d metrics;
     Price_Change_20d := change_20d metrics;
     Options_Proxy := options_proxy metrics;
     Put_Call_Proxy := put_call_proxy metrics;
     Short_Ratio := short_ratio metrics;
     Short_Percent := short_percent metrics |}.

Definition add_all_screening_metrics
  (market : string -> outcome TickerData) (fs : FileSystem)
  : outcome FileSystem :=
  if negb (path_exists fs (filtered_csv fs))
  then Returned fs
  else
    let df := match filtered_csv fs with Some l => l | None => [] end in
    write_raw (map (metrics_row market) df) fs.
End Collector.

(** *** Stage 4: the composite scorer *)

(** [values.rank(pct=True) * 100] *)
Definition normalize_score (values : Series) : Series :=
  smul (rank true true values) 100.

(** The benchmark's 20-day return; the bare except gives 2.0.  The value
    is the program's when the close 20 days back is not zero.  With a zero
    close numpy's division gives inf or NaN without raising, which the
    numbers of this model do not have; [benchmark_finite] below says that
    this does not happen. *)
Definition benchmark_return (spy_history : outcome (list Bar)) : Q :=
  try_except
    (spy_hist <- spy_history ;;
     last <- iloc_neg (closes spy_hist) 1 ;;
     prior <- iloc_neg (closes spy_hist) 21 ;;
     Returned ((last - prior) / prior * 100))
    (fun _ => 2.0).

Definition at_ (s : Series) (i : nat) : cell := nth i s NaN.

(** [sort_values('Composite_Score', ascending=False)]: larger first, NaN
    last.  pandas does not fix the order of rows with equal scores; the
    sort used here keeps their input order, and the properties below hold
    for any order of them. *)
Definition composite_before (a b : ScoredRow) : bool :=
  match Composite_Score a, Composite_Score b with
  | Some x, Some y => Qle_bool y x
  | Some _, None => true
  | None, Some _ => false
  | None, None => true
  end.

(** The data frame of [calculate_screening_scores] after the Rank column
    is added and before it is sorted; [w] is the weight configuration the
    script reads from SCREENING_WEIGHTS. *)
Definition score_table (w : Weights) (spy_return_20d : Q)
  (df : list RawRow) : list ScoredRow :=
  let col (f : RawRow -> cell) := map f df in
  let Volume_Score_ := normalize_score (fillna 0 (col Volume_Ratio)) in
  let price_composite :=
    sadd (sadd (smul (fillna 0 (col Price_Change_1d)) 0.5)
               (smul (fillna 0 (col Price_Change_5d)) 0.3))
         (smul (fillna 0 (col Price_Change_20d)) 0.2) in
  let Price_Change_Score_ := normalize_score price_composite in
  let relative_strength :=
    ssub (fillna 0 (col Price_Change_20d)) spy_return_20d in
  let Relative_Strength_Score_ := normalize_score relative_strength in
  let Historical_Vol_Score_ :=
    normalize_score (fillna 0 (col Historical_Vol)) in
  let options_composite :=
    sadd (smul (normalize_score (fillna 0 (col Options_Proxy))) 0.7)
         (smul (normalize_score (fillna 1 (col Put_Call_Proxy))) 0.3) in
  let squeeze_composite :=
    sadd (sadd (smul (normalize_score (fillna 0 (col Short_Percent))) 0.5)
               (smul (normalize_score (fillna 0 (col Short_Ratio))) 0.3))
         (smul (normalize_score (fillna 0 (col Price_Change_5d))) 0.2) in
  let Composite_Score_ :=
    sadd (sadd (sadd (sadd (sadd
      (smul Volume_Score_ (volume_score w))
      (smul Price_Change_Score_ (price_change_score w)))
      (smul Relative_Strength_Score_ (relative_strength_score w)))
      (smul Historical_Vol_Score_ (historical_vol_score w)))
      (smul options_composite (options_score w)))
      (smul squeeze_composite (short_squeeze_score w)) in
  let Rank_ := rank false false Composite_Score_ in
  map (fun ir =>
         let i := fst ir in
         {| raw := snd ir;
            Volume_Score := at_ Volume_Score_ i;
            Price_Change_Score := at_ Price_Change_Score_ i;
            Relative_Strength_Score := at_ Relative_Strength_Score_ i;
            Historical_Vol_Score := at_ Historical_Vol_Score_ i;
            Options_Score := at_ options_composite i;
            Short_Squeeze_Score := at_ squeeze_composite i;
            Composite_Score := at_ Composite_Score_ i;
            Rank := at_ Rank_ i |})
      (combine (seq 0 (length df)) df).

(** [calculate_screening_scores] for a weight configuration [w]. *)
Definition calculate_screening_scores_with (w : Weights)
  (spy_history : outcome (list Bar)) (fs : FileSystem)
  : outcome FileSystem :=
  if negb (path_exists fs (raw_csv fs))
  then Returned fs
  else
    let df := match raw_csv fs with Some l => l | None => [] end in
    let spy_return_20d := benchmark_return spy_history in
    write_results
      (sort composite_before (score_table w spy_return_20d df)) fs.

Definition calculate_screening_scores :=
  calculate_screening_scores_with SCREENING_WEIGHTS.

(** *** The driver *)

(** The external collaborators of one run. *)
Record Providers : Type := {
  read_html : outcome (list Table);
  financials : string -> outcome Financials;
  market : string -> outcome TickerData;
  spy_history : outcome (list Bar);
  log_return_volatility : list Q -> Q
}.

Definition main (env : Providers) (test_mode : bool) (test_count : nat)
  (fs : FileSystem) : outcome FileSystem :=
  fs <- create_dataframe_with_tickers (read_html env) test_mode test_count
          fs ;;
  fs <- filter_by_net_income (financials env) fs ;;
  fs <- add_all_screening_metrics (log_return_volatility env) (market env)
          fs ;;
  calculate_screening_scores (spy_history env) fs.

End Screening.

(* ------------------------------------------------------------------ *)
(** ** Specification-side definitions *)

Module Spec.
Import Python Pandas Screening.

(** The ordinal ranks [lt+1 .. lt+eq] of a tie group of [eq] entries with
    [lt] entries before it, and their mean. *)
Definition tie_group_ranks (lt eq : nat) : list Q :=
  map Qof (seq (S lt) eq).

Definition tie_group_average (lt eq : nat) : Q :=
  mean (tie_group_ranks lt eq).

(** The net-income rule of the Fundamental Filter. *)
Definition profitable_and_growing (newest middle oldest : Q) : Prop :=
  0 < newest /\ 0 < middle /\ 0 < oldest
  /\ oldest <= middle /\ middle <= newest.

(** The listing cannot be parsed: the fetch raises, there is no table, or
    the first table has neither recognised symbol column. *)
Inductive unparseable : outcome (list Table) -> Prop :=
| fetch_raises e : unparseable (Raised e)
| no_table : unparseable (Returned [])
| no_symbol_column df rest :
    has_column df "Symbol" = false ->
    has_column df "Ticker symbol" = false ->
    unparseable (Returned (df :: rest)).

(** Weights within 1e-9 of one. *)
Definition weights_valid (w : Weights) : Prop :=
  1 - (1 # 1000000000) <= weight_sum w
  /\ weight_sum w <= 1 + (1 # 1000000000).

(** Volume of the most recent day and mean volume of the last 20 days. *)
Definition latest_volume (h : list Bar) : Q :=
  last (volumes h) 0.

Definition trailing_mean_volume (h : list Bar) : Q :=
  mean (skipn (length h - 20) (volumes h)).

(** Close of the most recent day and close [N] trading days before it. *)
Definition latest_close (h : list Bar) : Q := last (closes h) 0.

Definition close_days_ago (N : nat) (h : list Bar) : Q :=
  nth (length h - 1 - N) (closes h) 0.

Definition percentage_change (h : list Bar) (N : nat) : Q :=
  round ((latest_close h - close_days_ago N h) / close_days_ago N h * 100)
        2.

(** A column value after imputation. *)
Definition filled (d : Q) (f : RawRow -> cell) (r : RawRow) : Q :=
  match f r with Some v => v | None => d end.

(** Percentile score of row [r] for the (imputed) raw value [g], in the
    data frame [df]. *)
Definition pscore (g : RawRow -> Q) (df : list RawRow) (r : RawRow) : Q :=
  let sorted := sort (before true) (map g df) in
  average_rank sorted (g r) / Qof (length sorted) * 100.

Definition price_composite (r : RawRow) : Q :=
  filled 0 Price_Change_1d r * 0.5 + filled 0 Price_Change_5d r * 0.3
  + filled 0 Price_Change_20d r * 0.2.

Definition relative_strength (spy : Q) (r : RawRow) : Q :=
  filled 0 Price_Change_20d r - spy.

Definition options_composite (df : list RawRow) (r : RawRow) : Q :=
  pscore (filled 0 Options_Proxy) df r * 0.7
  + pscore (filled 1 Put_Call_Proxy) df r * 0.3.

Definition squeeze_composite (df : list RawRow) (r : RawRow) : Q :=
  pscore (filled 0 Short_Percent) df r * 0.5
  + pscore (filled 0 Short_Ratio) df r * 0.3
  + pscore (filled 0 Price_Change_5d) df r * 0.2.

Definition composite (w : Weights) (spy : Q) (df : list RawRow)
  (r : RawRow) : Q :=
  pscore (filled 0 Volume_Ratio) df r * volume_score w
  + pscore price_composite df r * price_change_score w
  + pscore (relative_strength spy) df r * relative_strength_score w
  + pscore (filled 0 Historical_Vol) df r * historical_vol_score w
  + options_composite df r * options_score w
  + squeeze_composite df r * short_squeeze_score w.

(** The scored row of [r] as a function of the data frame. *)
Definition score_row (w : Weights) (spy : Q) (df : list RawRow)
  (r : RawRow) : ScoredRow :=
  {| raw := r;
     Volume_Score := Some (pscore (filled 0 Volume_Ratio) df r);
     Price_Change_Score := Some (pscore price_composite df r);
     Relative_Strength_Score := Some (pscore (relative_strength spy) df r);
     Historical_Vol_Score := Some (pscore (filled 0 Historical_Vol) df r);
     Options_Score := Some (options_composite df r);
     Short_Squeeze_Score := Some (squeeze_composite df r);
     Composite_Score := Some (composite w spy df r);
     Rank :=
       Some (average_rank
               (sort (before false) (map (composite w spy df) df))
               (composite w spy df r)) |}.

(** A row whose ten metrics are all missing, and the row the scorer ranks
    in its place. *)
Definition all_missing (r : RawRow) : Prop :=
  Historical_Vol r = NaN /\ Volume_Ratio r = NaN /\ Avg_Volume_20d r = NaN
  /\ Price_Change_1d r = NaN /\ Price_Change_5d r = NaN
  /\ Price_Change_20d r = NaN /\ Options_Proxy r = NaN
  /\ Put_Call_Proxy r = NaN /\ Short_Ratio r = NaN
  /\ Short_Percent r = NaN.

Definition imputed_defaults (ticker : string) : RawRow :=
  {| Ticker := ticker;
     Historical_Vol := Some 0; Volume_Ratio := Some 0;
     Avg_Volume_20d := NaN;
     Price_Change_1d := Some 0; Price_Change_5d := Some 0;
     Price_Change_20d := Some 0;
     Options_Proxy := Some 0; Put_Call_Proxy := Some 1;
     Short_Ratio := Some 0; Short_Percent := Some 0 |}.

(** The scores of a row, without the raw part. *)
Definition scores (s : ScoredRow) : list cell :=
  [Volume_Score s; Price_Change_Score s; Relative_Strength_Score s;
   Historical_Vol_Score s; Options_Score s; Short_Squeeze_Score s;
   Composite_Score s; Rank s].

Definition in_0_100 (c : cell) : Prop :=
  exists q, c = Some q /\ 0 < q /\ q <= 100.

(** Two rows that the scorer cannot tell apart: they agree on every raw
    value it ranks, after imputation. *)
Definition same_inputs (spy : Q) (r r' : RawRow) : Prop :=
  filled 0 Volume_Ratio r = filled 0 Volume_Ratio r'
  /\ price_composite r = price_composite r'
  /\ relative_strength spy r = relative_strength spy r'
  /\ filled 0 Historical_Vol r = filled 0 Historical_Vol r'
  /\ filled 0 Options_Proxy r = filled 0 Options_Proxy r'
  /\ filled 1 Put_Call_Proxy r = filled 1 Put_Call_Proxy r'
  /\ filled 0 Short_Percent r = filled 0 Short_Percent r'
  /\ filled 0 Short_Ratio r = filled 0 Short_Ratio r'
  /\ filled 0 Price_Change_5d r = filled 0 Price_Change_5d r'.

(** *** Further notions used for the other properties of the script *)

(** [l] is [l'] with some entries left out, the rest in their order. *)
Inductive subsequence {A : Type} : list A -> list A -> Prop :=
| sub_nil : subsequence [] []
| sub_skip x l l' : subsequence l l' -> subsequence l (x :: l')
| sub_keep x l l' : subsequence l l' -> subsequence (x :: l) (x :: l').

(** The row of a ticker none of whose metrics could be collected. *)
Definition missing_row (ticker : string) : RawRow :=
  {| Ticker := ticker;
     Historical_Vol := NaN; Volume_Ratio := NaN; Avg_Volume_20d := NaN;
     Price_Change_1d := NaN; Price_Change_5d := NaN;
     Price_Change_20d := NaN;
     Options_Proxy := NaN; Put_Call_Proxy := NaN;
     Short_Ratio := NaN; Short_Percent := NaN |}.


(** [info.get(key, 0)] *)
Definition get_or_0 (o : option Q) : Q :=
  match o with Some v => v | None => 0 end.

(** The universe the run screens: the listing, cut to [test_count] tickers
    in test mode. *)
Definition universe (test_mode : bool) (test_count : nat)
  (tickers : list string) : list string :=
  if test_mode then firstn test_count tickers else tickers.

Definition ticker_of (s : ScoredRow) : string := Ticker (raw s).

(** The exact (unrounded) percentage change over [N] trading days. *)
Definition exact_change (h : list Bar) (N : nat) : Q :=
  (latest_close h - close_days_ago N h) / close_days_ago N h * 100.


(** Contracts traded on one side of a chain: the reported volumes, a
    missing volume counting for nothing. *)
Definition contracts_traded (volume : Series) : Q := Qsum (dropna volume).

(** The percentile of the value [x] in a column of numbers, counted on the
    column itself: with [lt] entries strictly smaller than [x] and [eq]
    entries equal to it, the mean of the ranks [lt+1 .. lt+eq] over the
    number of entries, times 100. *)
Definition percentile_of (x : Q) (column : list Q) : Q :=
  tie_group_average (count_before true x column) (dups x column)
  / Qof (length column) * 100.

(** The rank of [x] in a column counted from the top: with [gt] entries
    strictly larger and [eq] equal, the mean of the ranks [gt+1 .. gt+eq]. *)
Definition rank_from_top (x : Q) (column : list Q) : Q :=
  tie_group_average (count_before false x column) (dups x column).

(** A raw column after imputation with the default [d]. *)
Definition imputed (d : Q) (f : RawRow -> cell) (df : list RawRow)
  : list Q :=
  map (filled d f) df.

(** The benchmark expression gives a finite number: the fetch raises or
    brings fewer than 21 days (the fallback), or the close 20 trading days
    back is not zero. *)
Definition benchmark_finite (spy : outcome (list Bar)) : Prop :=
  match spy with
  | Raised _ => True
  | Returned h => (length h < 21)%nat \/ ~ close_days_ago 20 h == 0
  end.

End Spec.

(* ------------------------------------------------------------------ *)
(** ** Sample data *)

Module Examples.
Import Python Pandas Screening Spec.

Definition row (t : string) (v : cell) : RawRow :=
  {| Ticker := t; Historical_Vol := v; Volume_Ratio := v;
     Avg_Volume_20d := v; Price_Change_1d := v; Price_Change_5d := v;
     Price_Change_20d := v; Options_Proxy := v; Put_Call_Proxy := v;
     Short_Ratio := v; Short_Percent := v |}.

Definition snapshot : list RawRow :=
  [row "AAA" (Some 1.5); row "BBB" NaN; row "CCC" (Some 3)].

Definition with_raw (df : list RawRow) : FileSystem :=
  {| data_dir := true; tickers_csv := None; filtered_csv := None;
     raw_csv := Some df; results_csv := None |}.

Definition empty_data_dir : FileSystem :=
  {| data_dir := true; tickers_csv := None; filtered_csv := None;
     raw_csv := None; results_csv := None |}.

(** Weights that sum to two. *)
Definition doubled_weights : Weights := {|
  volume_score := 0.40;
  price_change_score := 0.50;
  relative_strength_score := 0.40;
  historical_vol_score := 0.30;
  options_score := 0.20;
  short_squeeze_score := 0.20
|}.

(** A listing page whose table has no symbol column. *)
Definition listing_without_symbols : outcome (list Table) :=
  Returned [[("Security"%string, ["Apple Inc."%string]);
             ("CIK"%string, ["320193"%string])]].

(** The fundamentals of the end-to-end scenario: A grows 5, 6, 7 (newest
    first in the provider's table), B dips 5, 4, 6, C has two periods. *)
Definition scenario_financials (ticker : string) : outcome Financials :=
  if String.eqb ticker "A" then
    Returned {| columns := ["2024"; "2023"; "2022"]%string;
                index := [("Total Revenue"%string,
                           [Some 90; Some 80; Some 70]);
                          ("Net Income"%string,
                           [Some 7; Some 6; Some 5])] |}
  else if String.eqb ticker "B" then
    Returned {| columns := ["2024"; "2023"; "2022"]%string;
                index := [("Net Income"%string,
                           [Some 6; Some 4; Some 5])] |}
  else if String.eqb ticker "C" then
    Returned {| columns := ["2024"; "2023"]%string;
                index := [("Net Income"%string, [Some 7; Some 6])] |}
  else Raised ProviderError.

Definition with_tickers (l : list string) : FileSystem :=
  {| data_dir := true; tickers_csv := Some l; filtered_csv := None;
     raw_csv := None; results_csv := None |}.

Definition quote (h : list Bar) : TickerData :=
  {| history_1y := h; history_30d := h; history_5d := [];
     shortRatio := None; shortPercentOfFloat := None;
     option_chains := Returned [] |}.

(** Twenty days without a single trade. *)
Definition no_trading : list Bar :=
  repeat {| Close := 10; Volume := 0 |} 20.

(** Ten days of prices, 100 up to 109. *)
Definition ten_days : list Bar :=
  map (fun i => {| Close := inject_Z (100 + Z.of_nat i); Volume := 1000 |})
      (seq 0 10).

(** Twenty-five days: closes 100 .. 124, volumes 1000 and a last day of
    3000. *)
Definition twenty_five_days : list Bar :=
  map (fun i => {| Close := inject_Z (100 + Z.of_nat i); Volume := 1000 |})
      (seq 0 24)
  ++ [{| Close := 124; Volume := 3000 |}].

Definition flat_volatility (closes : list Q) : Q := 0.

Definition failing_listing_run : Providers :=
  {| read_html := listing_without_symbols;
     financials := scenario_financials;
     market := fun _ => Raised ProviderError;
     spy_history := Raised ProviderError;
     log_return_volatility := flat_volatility |}.

(** A listing page with a symbol column. *)
Definition listing_with_symbols : outcome (list Table) :=
  Returned [[("Symbol"%string, ["A"; "B"; "C"]%string);
             ("Security"%string, ["Alpha"; "Beta"; "Gamma"]%string)]].

Definition no_data_dir : FileSystem :=
  {| data_dir := false; tickers_csv := None; filtered_csv := None;
     raw_csv := None; results_csv := None |}.

Definition with_filtered (l : list string) : FileSystem :=
  {| data_dir := true; tickers_csv := None; filtered_csv := Some l;
     raw_csv := None; results_csv := None |}.

(** A provider that knows ticker A only. *)
Definition market_of_A (ticker : string) : outcome TickerData :=
  if String.eqb ticker "A" then Returned (quote twenty_five_days)
  else Raised ProviderError.

Definition scenario_run : Providers :=
  {| read_html := listing_with_symbols;
     financials := scenario_financials;
     market := market_of_A;
     spy_history := Raised ProviderError;
     log_return_volatility := flat_volatility |}.

(** An option chain without a single traded contract. *)
Definition idle_chain : OptionChain :=
  {| calls_volume := [Some 0; NaN]; puts_volume := [NaN] |}.

Definition quote_with_chain (h : list Bar) (c : OptionChain) : TickerData :=
  {| history_1y := h; history_30d := h; history_5d := h;
     shortRatio := Some 2.345; shortPercentOfFloat := None;
     option_chains := Returned [c] |}.


End Examples.

Import Python Pandas Screening Spec.

(* ------------------------------------------------------------------ *)
(** ** Rational comparisons *)

Lemma Qle_bool_false (x y : Q) : Qle_bool x y = false -> y < x.
Proof.
  intros H. apply Qnot_le_lt. intros Hle.
  apply Qle_bool_iff in Hle. congruence.
Qed.

Lemma Qeq_bool_false (x y : Q) : Qeq_bool x y = false -> ~ x == y.
Proof. intros H. now apply Qeq_bool_neq. Qed.

Ltac q2p :=
  repeat match goal with
    | H : Qle_bool _ _ = true |- _ => apply Qle_bool_iff in H
    | H : Qle_bool _ _ = false |- _ => apply Qle_bool_false in H
    | H : Qeq_bool _ _ = true |- _ => apply Qeq_bool_iff in H
    | H : Qeq_bool _ _ = false |- _ => apply Qeq_bool_false in H
    | H : negb _ = true |- _ => apply negb_true_iff in H
    | H : negb _ = false |- _ => apply negb_false_iff in H
    end.

Ltac qcases :=
  repeat match goal with
    | |- context [Qle_bool ?a ?b] => destruct (Qle_bool a b) eqn:?
    | |- context [Qeq_bool ?a ?b] => destruct (Qeq_bool a b) eqn:?
    end.

(** Decide a goal on the order of [rank] by going to [Q]. *)
Ltac order :=
  unfold strictly_before, before in *;
  repeat match goal with a : bool |- _ => destruct a end;
  simpl in *; q2p; qcases; q2p;
  try reflexivity; try discriminate; try (exfalso; lra); try lra.

(* ------------------------------------------------------------------ *)
(** ** The sorted pass *)

Section SortFacts.
Context {A : Type} (le : A -> A -> bool).
Hypothesis le_total : forall x y, le x y = true \/ le y x = true.
Hypothesis le_trans :
  forall x y z, le x y = true -> le y z = true -> le x z = true.

Lemma insert_perm (x : A) (l : list A) : Permutation (insert le x l) (x :: l).
Proof.
  induction l as [|y l IH]; simpl; [reflexivity|].
  destruct (le x y); [reflexivity|].
  rewrite IH. apply perm_swap.
Qed.

Lemma sort_perm (l : list A) : Permutation (sort le l) l.
Proof.
  induction l as [|x l IH]; simpl; [constructor|].
  rewrite insert_perm. now constructor.
Qed.

Lemma insert_sorted (x : A) (l : list A) :
  StronglySorted (fun a b => le a b = true) l ->
  StronglySorted (fun a b => le a b = true) (insert le x l).
Proof.
  induction 1 as [|y l Hs IH Hall]; simpl.
  - repeat constructor.
  - destruct (le x y) eqn:E.
    + constructor; [now constructor|].
      constructor; [exact E|].
      eapply Forall_impl; [|exact Hall]. intros z Hz. eauto.
    + constructor; [exact IH|].
      assert (Hyx : le y x = true) by (destruct (le_total x y); congruence).
      eapply Permutation_Forall; [symmetry; apply insert_perm|].
      now constructor.
Qed.

Lemma sort_sorted (l : list A) :
  StronglySorted (fun a b => le a b = true) (sort le l).
Proof.
  induction l; simpl; [constructor|]. now apply insert_sorted.
Qed.
End SortFacts.

Lemma before_total asc x y : before asc x y = true \/ before asc y x = true.
Proof.
  destruct (before asc x y) eqn:E; [now left|right]. order.
Qed.

Lemma before_trans asc x y z :
  before asc x y = true -> before asc y z = true -> before asc x z = true.
Proof.
  intros H1 H2. destruct (before asc x z) eqn:E; [reflexivity|]. order.
Qed.

Lemma rank_sorted asc (l : list Q) :
  StronglySorted (fun a b => before asc a b = true) (sort (before asc) l).
Proof.
  apply sort_sorted; [apply before_total | apply before_trans].
Qed.

(* ------------------------------------------------------------------ *)
(** ** Counting characterisation of the average rank *)

Lemma dups_perm x (l l' : list Q) :
  Permutation l l' -> dups x l = dups x l'.
Proof. induction 1; simpl; lia. Qed.

Lemma count_before_perm asc x (l l' : list Q) :
  Permutation l l' -> count_before asc x l = count_before asc x l'.
Proof. induction 1; simpl; lia. Qed.

Lemma dups_Qeq x y (l : list Q) : x == y -> dups x l = dups y l.
Proof.
  intros E. induction l as [|z l IH]; simpl; [reflexivity|].
  rewrite IH. f_equal. order.
Qed.

Lemma rank_sum_Qeq x y (l : list Q) pos :
  x == y -> rank_sum x pos l = rank_sum y pos l.
Proof.
  intros E. revert pos. induction l as [|z l IH]; intros pos; simpl;
    [reflexivity|].
  rewrite IH. f_equal. order.
Qed.

(** Behind an entry that [x] does not come strictly after, nothing comes
    strictly before [x]. *)
Lemma count_before_behind asc x a (l : list Q) :
  Forall (fun z => before asc a z = true) l ->
  before asc x a = true ->
  count_before asc x l = 0%nat.
Proof.
  intros Hall Hxa. induction Hall as [|z l Hz _ IH]; simpl; [reflexivity|].
  rewrite IH.
  replace (strictly_before asc z x) with false; [reflexivity|].
  destruct (strictly_before asc z x) eqn:E; [|reflexivity]. order.
Qed.

(** Behind an entry that comes strictly after [x], nothing equals [x]. *)
Lemma dups_behind asc x a (l : list Q) :
  Forall (fun z => before asc a z = true) l ->
  strictly_before asc x a = true ->
  dups x l = 0%nat.
Proof.
  intros Hall Hxa. induction Hall as [|z l Hz _ IH]; simpl; [reflexivity|].
  rewrite IH.
  replace (Qeq_bool z x) with false; [reflexivity|].
  destruct (Qeq_bool z x) eqn:E; [|reflexivity]. order.
Qed.

(** In a sorted pass the entries equal to [x] sit at the consecutive
    positions after the entries strictly before [x]. *)
Lemma rank_sum_sorted asc x (l : list Q) :
  StronglySorted (fun a b => before asc a b = true) l ->
  forall pos,
    (2 * rank_sum x pos l + dups x l
     = dups x l * (2 * pos + 2 * count_before asc x l + dups x l))%nat.
Proof.
  induction 1 as [|a l Hs IH Hall]; intros pos; simpl; [lia|].
  specialize (IH (S pos)).
  destruct (Qeq_bool a x) eqn:E.
  - assert (Hc : count_before asc x l = 0%nat).
    { apply count_before_behind with (a := a); [exact Hall|]. order. }
    replace (strictly_before asc a x) with false.
    + rewrite Hc in *. nia.
    + destruct (strictly_before asc a x) eqn:B; [|reflexivity]. order.
  - destruct (strictly_before asc a x) eqn:B.
    + nia.
    + assert (Hd : dups x l = 0%nat).
      { apply dups_behind with (asc := asc) (a := a); [exact Hall|]. order. }
      rewrite Hd in *. nia.
Qed.

Lemma rank_sum_counts asc x (V : list Q) :
  (2 * rank_sum x 1 (sort (before asc) V) + dups x V
   = dups x V * (2 + 2 * count_before asc x V + dups x V))%nat.
Proof.
  pose proof (rank_sum_sorted asc x _ (rank_sorted asc V) 1) as H.
  rewrite (dups_perm x _ _ (sort_perm (before asc) V)) in H.
  rewrite (count_before_perm asc x _ _ (sort_perm (before asc) V)) in H.
  lia.
Qed.

Lemma dups_sort asc x (V : list Q) : dups x (sort (before asc) V) = dups x V.
Proof. apply dups_perm, sort_perm. Qed.

Lemma sort_length {A} (le : A -> A -> bool) (l : list A) :
  length (sort le l) = length l.
Proof. apply Permutation_length, sort_perm. Qed.

Lemma dups_pos x (l : list Q) : In x l -> (1 <= dups x l)%nat.
Proof.
  induction l as [|y l IH]; simpl; [tauto|].
  intros [->|Hin].
  - rewrite Qeq_bool_refl. lia.
  - specialize (IH Hin). lia.
Qed.

Lemma count_dups_length asc x (l : list Q) :
  (count_before asc x l + dups x l <= length l)%nat.
Proof.
  induction l as [|y l IH]; simpl; [lia|].
  destruct (Qeq_bool y x) eqn:E, (strictly_before asc y x) eqn:B; try lia.
  exfalso. order.
Qed.

(** Arithmetic on [Qof]. *)
Lemma Qof_add a b : Qof (a + b) == Qof a + Qof b.
Proof. unfold Qof. now rewrite Nat2Z.inj_add, inject_Z_plus. Qed.

Lemma Qof_mul a b : Qof (a * b) == Qof a * Qof b.
Proof. unfold Qof. now rewrite Nat2Z.inj_mul, inject_Z_mult. Qed.

Lemma Qof_S a : Qof (S a) == Qof a + 1.
Proof. replace (S a) with (a + 1)%nat by lia. now rewrite Qof_add. Qed.

Lemma Qof_le a b : (a <= b)%nat -> Qof a <= Qof b.
Proof. intros H. unfold Qof. rewrite <- Zle_Qle. lia. Qed.

Lemma Qof_pos a : (1 <= a)%nat -> 0 < Qof a.
Proof.
  intros H. unfold Qof. change 0 with (inject_Z 0). rewrite <- Zlt_Qlt. lia.
Qed.

(** The closed form of method='average': with [lt] entries before the tie
    group and [eq] entries in it, the rank is [lt + (eq + 1) / 2]. *)
Lemma average_rank_counts asc x (V : list Q) :
  (1 <= dups x V)%nat ->
  average_rank (sort (before asc) V) x
  == Qof (count_before asc x V) + (Qof (dups x V) + 1) / 2.
Proof.
  intros Hd. unfold average_rank. rewrite dups_sort.
  pose proof (rank_sum_counts asc x V) as H.
  assert (H' : Qof (2 * rank_sum x 1 (sort (before asc) V) + dups x V)
               == Qof (dups x V
                       * (2 + 2 * count_before asc x V + dups x V)))
    by (now rewrite H).
  rewrite ?Qof_add, ?Qof_mul, ?Qof_add, ?Qof_mul in H'.
  change (Qof 2) with 2 in H'.
  pose proof (Qof_pos _ Hd) as Hp.
  field_simplify_eq; [|lra]. nra.
Qed.

(* ------------------------------------------------------------------ *)
(** ** Percentile normalisation *)

Lemma dropna_map_Some (l : list Q) : dropna (map Some l) = l.
Proof. induction l; simpl; congruence. Qed.

Lemma dropna_In x (s : Series) : In (Some x) s -> In x (dropna s).
Proof.
  induction s as [|[v|] s IH]; simpl; [tauto| |].
  - intros [E|H]; [left; congruence|right; auto].
  - intros [E|H]; [discriminate|auto].
Qed.

Lemma normalize_score_nth (values : Series) i x :
  nth_error values i = Some (Some x) ->
  nth_error (normalize_score values) i
  = Some (Some (average_rank (sort (before true) (dropna values)) x
                / Qof (length (sort (before true) (dropna values))) * 100)).
Proof.
  intros H. unfold normalize_score, smul, rank, Series, cell in *. cbv zeta.
  rewrite !nth_error_map, H. reflexivity.
Qed.

Lemma Qsum_seq a n :
  Qsum (map Qof (seq a n)) == Qof n * Qof a + Qof n * (Qof n - 1) / 2.
Proof.
  revert a. induction n as [|n IH]; intros a.
  - simpl. unfold Qof. simpl. field.
  - cbn [seq map Qsum fold_right]. fold (Qsum (map Qof (seq (S a) n))).
    rewrite IH, !Qof_S. field.
Qed.

Lemma tie_group_average_closed lt eq :
  (1 <= eq)%nat ->
  tie_group_average lt eq == Qof lt + (Qof eq + 1) / 2.
Proof.
  intros H. unfold tie_group_average, tie_group_ranks, mean.
  rewrite length_map, length_seq, Qsum_seq, Qof_S.
  pose proof (Qof_pos _ H). field. lra.
Qed.

(** C4.  Percentile normalisation with ties: two entries of a column with
    the same raw value get the identical normalised score, and that score
    is the average of the ordinal ranks [lt+1 .. lt+eq] the tie group
    occupies ([lt] valid entries are strictly smaller, [eq] are equal),
    put on the percentile scale: divided by the number of valid entries
    and multiplied by 100. *)
Theorem normalize_score_tie_group (values : Series) (i j : nat) (x y : Q) :
  nth_error values i = Some (Some x) ->
  nth_error values j = Some (Some y) ->
  x == y ->
  exists s,
    nth_error (normalize_score values) i = Some (Some s)
    /\ nth_error (normalize_score values) j = Some (Some s)
    /\ s == tie_group_average (count_before true x (dropna values))
                              (dups x (dropna values))
            / Qof (length (dropna values)) * 100.
Proof.
  intros Hi Hj E.
  eexists. split; [apply normalize_score_nth, Hi|]. split.
  - rewrite (normalize_score_nth _ _ _ Hj). unfold average_rank.
    rewrite (rank_sum_Qeq _ _ _ _ E), (dups_Qeq _ _ _ E). reflexivity.
  - assert (Hd : (1 <= dups x (dropna values))%nat).
    { apply dups_pos, dropna_In. eapply nth_error_In, Hi. }
    rewrite sort_length, average_rank_counts by exact Hd.
    rewrite tie_group_average_closed by exact Hd. reflexivity.
Qed.

(** No ties *)

Lemma dups_notin x (l : list Q) : ~ InA Qeq x l -> dups x l = 0%nat.
Proof.
  induction l as [|y l IH]; simpl; [reflexivity|].
  intros H. rewrite IH by (intros C; apply H; now right).
  destruct (Qeq_bool y x) eqn:E; [|reflexivity].
  exfalso. apply H. left. q2p. now symmetry.
Qed.

Lemma dups_NoDupA x (l : list Q) :
  NoDupA Qeq l -> In x l -> dups x l = 1%nat.
Proof.
  induction 1 as [|y l Hy Hnd IH]; simpl; [tauto|].
  intros [->|Hin].
  - rewrite Qeq_bool_refl, dups_notin by exact Hy. reflexivity.
  - rewrite IH by exact Hin.
    destruct (Qeq_bool y x) eqn:E; [|reflexivity].
    exfalso. apply Hy. q2p. apply InA_alt. exists x. split; assumption.
Qed.

Lemma count_before_mono x y (l : list Q) :
  x <= y -> (count_before true x l <= count_before true y l)%nat.
Proof.
  intros Hxy. induction l as [|z l IH]; simpl; [lia|].
  destruct (strictly_before true z x) eqn:B1,
           (strictly_before true z y) eqn:B2; try lia.
  exfalso. order.
Qed.

Lemma count_before_strict x y (l : list Q) :
  In x l -> x < y -> (count_before true x l < count_before true y l)%nat.
Proof.
  intros Hin Hxy. induction l as [|z l IH]; simpl; [destruct Hin|].
  destruct Hin as [->|Hin].
  - pose proof (count_before_mono x y l (Qlt_le_weak _ _ Hxy)).
    replace (strictly_before true x x) with false by (symmetry; order).
    replace (strictly_before true x y) with true by (symmetry; order).
    lia.
  - specialize (IH Hin).
    destruct (strictly_before true z x) eqn:B1,
             (strictly_before true z y) eqn:B2; try lia.
    exfalso. order.
Qed.

Lemma ordinal_ranks_NoDup (l0 l : list Q) :
  incl l l0 -> NoDupA Qeq l ->
  NoDup (map (fun x => S (count_before true x l0)) l).
Proof.
  intros Hincl Hnd. induction Hnd as [|x l Hx Hnd IH]; simpl; [constructor|].
  constructor.
  - intros Hin. apply in_map_iff in Hin. destruct Hin as [z [Hz Hzl]].
    assert (Hneq : ~ z == x).
    { intros E. apply Hx. apply InA_alt. exists z. split; [now symmetry|].
      exact Hzl. }
    assert (Hx0 : In x l0) by (apply Hincl; now left).
    assert (Hz0 : In z l0) by (apply Hincl; now right).
    destruct (Q_dec z x) as [[Hlt|Hgt]|E]; [| |contradiction].
    + pose proof (count_before_strict z x l0 Hz0 Hlt). lia.
    + pose proof (count_before_strict x z l0 Hx0 Hgt). lia.
  - apply IH. intros y Hy. apply Hincl. now right.
Qed.

Lemma Forall2_map_same {A B C} (R : B -> C -> Prop) (f : A -> B)
  (g : A -> C) (l : list A) :
  (forall a, In a l -> R (f a) (g a)) -> Forall2 R (map f l) (map g l).
Proof.
  induction l as [|a l IH]; simpl; intros H; constructor.
  - apply H. now left.
  - apply IH. intros b Hb. apply H. now right.
Qed.

(** C3.  Percentile normalisation without ties: for a column of N numbers
    no two of which are equal, the normalised scores are, entry by entry,
    [100 * k / N] for [k] running through a permutation of [1 .. N]. *)
Theorem normalize_score_no_ties (values : list Q) :
  NoDupA Qeq values ->
  exists ks : list nat,
    Permutation ks (seq 1 (length values))
    /\ Forall2 (fun c k =>
                  exists s, c = Some s
                            /\ s == 100 * Qof k / Qof (length values))
               (normalize_score (map Some values)) ks.
Proof.
  intros Hnd.
  exists (map (fun x => S (count_before true x values)) values). split.
  - apply NoDup_Permutation_bis.
    + apply ordinal_ranks_NoDup; [apply incl_refl | exact Hnd].
    + rewrite length_seq, length_map. lia.
    + intros k Hk. apply in_map_iff in Hk. destruct Hk as [x [<- Hx]].
      apply in_seq. pose proof (count_dups_length true x values).
      pose proof (dups_pos x values Hx). lia.
  - unfold normalize_score, smul, rank. cbv zeta.
    rewrite dropna_map_Some, !map_map.
    apply Forall2_map_same. intros x Hx. eexists. split; [reflexivity|].
    pose proof (dups_NoDupA x values Hnd Hx) as Hd.
    rewrite sort_length, average_rank_counts by lia.
    rewrite Hd. change (Qof 1) with 1. rewrite Qof_S.
    assert (0 < Qof (length values)).
    { apply Qof_pos. destruct values; [destruct Hx|simpl; lia]. }
    field. lra.
Qed.

(** The statement at a column of three distinct values. *)
Lemma normalize_score_no_ties_witness :
  exists ks : list nat,
    Permutation ks (seq 1 3)
    /\ Forall2 (fun c k => exists s, c = Some s /\ s == 100 * Qof k / Qof 3)
               (normalize_score (map Some [3; 1; 2])) ks.
Proof.
  apply (normalize_score_no_ties [3; 1; 2]).
  repeat constructor; intros H; inversion H; subst;
    try discriminate;
    repeat match goal with
      | H : InA _ _ _ |- _ => inversion H; clear H; subst; try discriminate
      end.
Defined.

Lemma normalize_score_tie_group_witness :
  exists s,
    nth_error (normalize_score [Some 1; Some 3; Some (2 # 2)]) 0
    = Some (Some s)
    /\ nth_error (normalize_score [Some 1; Some 3; Some (2 # 2)]) 2
       = Some (Some s)
    /\ s == tie_group_average
              (count_before true 1 (dropna [Some 1; Some 3; Some (2 # 2)]))
              (dups 1 (dropna [Some 1; Some 3; Some (2 # 2)]))
            / Qof (length (dropna [Some 1; Some 3; Some (2 # 2)])) * 100.
Proof.
  apply (normalize_score_tie_group [Some 1; Some 3; Some (2 # 2)] 0 2
           1 (2 # 2)); reflexivity.
Defined.

(* ------------------------------------------------------------------ *)
(** ** The composite scorer, row by row *)

Lemma fillna_map d (f : RawRow -> cell) (df : list RawRow) :
  fillna d (map f df) = map (fun r => Some (filled d f r)) df.
Proof.
  unfold fillna, filled. rewrite map_map. apply map_ext.
  intros r. now destruct (f r).
Qed.

Lemma fillna_no_NaN d (s : Series) : ~ In NaN (fillna d s).
Proof.
  unfold fillna. intros H. apply in_map_iff in H.
  destruct H as [[v|] [H _]]; discriminate.
Qed.

Lemma smul_map (g : RawRow -> Q) k (df : list RawRow) :
  smul (map (fun r => Some (g r)) df) k = map (fun r => Some (g r * k)) df.
Proof. unfold smul. now rewrite map_map. Qed.

Lemma ssub_map (g : RawRow -> Q) k (df : list RawRow) :
  ssub (map (fun r => Some (g r)) df) k = map (fun r => Some (g r - k)) df.
Proof. unfold ssub. now rewrite map_map. Qed.

Lemma sadd_map (g h : RawRow -> Q) (df : list RawRow) :
  sadd (map (fun r => Some (g r)) df) (map (fun r => Some (h r)) df)
  = map (fun r => Some (g r + h r)) df.
Proof. induction df as [|r df IH]; simpl; [reflexivity|]. now rewrite IH. Qed.

Lemma dropna_map (g : RawRow -> Q) (df : list RawRow) :
  dropna (map (fun r => Some (g r)) df) = map g df.
Proof. induction df; simpl; congruence. Qed.

Lemma normalize_map (g : RawRow -> Q) (df : list RawRow) :
  normalize_score (map (fun r => Some (g r)) df)
  = map (fun r => Some (pscore g df r)) df.
Proof.
  unfold normalize_score, smul, rank, pscore. cbv zeta.
  rewrite dropna_map, !map_map. reflexivity.
Qed.

Lemma rank_map asc (g : RawRow -> Q) (df : list RawRow) :
  rank asc false (map (fun r => Some (g r)) df)
  = map (fun r => Some (average_rank (sort (before asc) (map g df)) (g r)))
        df.
Proof.
  unfold rank. cbv zeta. rewrite dropna_map, !map_map. reflexivity.
Qed.

Lemma at_map (g : RawRow -> Q) (df : list RawRow) i r :
  nth_error df i = Some r ->
  at_ (map (fun r => Some (g r)) df) i = Some (g r).
Proof.
  intros H. unfold at_. apply nth_error_nth.
  rewrite nth_error_map, H. reflexivity.
Qed.

Lemma in_combine_seq (l : list RawRow) :
  forall a i r,
    In (i, r) (combine (seq a (length l)) l) ->
    (a <= i)%nat /\ nth_error l (i - a) = Some r.
Proof.
  induction l as [|x l IH]; intros a i r; simpl; [tauto|].
  intros [E|H].
  - inversion E; subst. rewrite Nat.sub_diag. split; [lia|reflexivity].
  - apply IH in H. destruct H as [Hle H]. split; [lia|].
    replace (i - a)%nat with (S (i - S a)) by lia. exact H.
Qed.

Lemma map_snd_combine_seq (l : list RawRow) :
  forall a, map snd (combine (seq a (length l)) l) = l.
Proof.
  induction l as [|x l IH]; intros a; simpl; [reflexivity|]. now rewrite IH.
Qed.

(** The table the script builds column by column is the row-by-row one. *)
Lemma score_table_rows w spy (df : list RawRow) :
  score_table w spy df = map (score_row w spy df) df.
Proof.
  unfold score_table. cbv zeta.
  rewrite !fillna_map.
  repeat (rewrite ?smul_map, ?ssub_map, ?normalize_map, ?sadd_map).
  rewrite rank_map.
  transitivity (map (fun ir => score_row w spy df (snd ir))
                    (combine (seq 0 (length df)) df)).
  - apply map_ext_in. intros [i r] Hin.
    apply in_combine_seq in Hin. destruct Hin as [_ Hi].
    rewrite Nat.sub_0_r in Hi. simpl.
    unfold score_row. rewrite !(at_map _ df i r Hi). reflexivity.
  - rewrite <- (map_map snd (score_row w spy df)).
    now rewrite map_snd_combine_seq.
Qed.

(** *** Bounds *)

Lemma average_rank_bounds asc x (V : list Q) :
  In x V ->
  1 <= average_rank (sort (before asc) V) x
  /\ average_rank (sort (before asc) V) x <= Qof (length V).
Proof.
  intros Hin. pose proof (dups_pos x V Hin) as Hd.
  rewrite average_rank_counts by exact Hd.
  pose proof (Qof_le _ _ Hd) as H1. change (Qof 1) with 1 in H1.
  pose proof (Qof_le _ _ (count_dups_length asc x V)) as H2.
  rewrite Qof_add in H2.
  pose proof (Qof_le _ _ (Nat.le_0_l (count_before asc x V))) as H3.
  change (Qof 0) with 0 in H3.
  unfold Qdiv. change (/ 2) with (1 # 2).
  split; lra.
Qed.

Lemma pscore_bounds (g : RawRow -> Q) (df : list RawRow) r :
  In r df -> 0 < pscore g df r /\ pscore g df r <= 100.
Proof.
  intros Hin. unfold pscore. rewrite sort_length.
  assert (Hx : In (g r) (map g df)) by now apply in_map.
  destruct (average_rank_bounds true _ _ Hx) as [H1 H2].
  assert (Hn : 0 < Qof (length (map g df))).
  { apply Qof_pos. rewrite length_map. destruct df; [destruct Hin|simpl; lia]. }
  set (a := average_rank _ _) in *. set (n := Qof _) in *.
  assert (0 < a / n) by (apply Qlt_shift_div_l; lra).
  assert (a / n <= 1) by (apply Qle_shift_div_r; lra).
  split; lra.
Qed.

(** *** Row order *)

Lemma average_rank_perm asc x (V V' : list Q) :
  Permutation V V' ->
  average_rank (sort (before asc) V) x = average_rank (sort (before asc) V') x.
Proof.
  intros HP. unfold average_rank.
  pose proof (rank_sum_counts asc x V) as H.
  pose proof (rank_sum_counts asc x V') as H'.
  rewrite !dups_sort.
  rewrite <- (dups_perm x _ _ HP) in *.
  rewrite <- (count_before_perm asc x _ _ HP) in H'.
  f_equal. f_equal. lia.
Qed.

Lemma pscore_perm (g : RawRow -> Q) (df df' : list RawRow) r :
  Permutation df df' -> pscore g df r = pscore g df' r.
Proof.
  intros HP. unfold pscore.
  rewrite !sort_length, !length_map, (Permutation_length HP).
  rewrite (average_rank_perm true _ _ _ (Permutation_map g HP)).
  reflexivity.
Qed.

Lemma composite_perm w spy (df df' : list RawRow) r :
  Permutation df df' -> composite w spy df r = composite w spy df' r.
Proof.
  intros HP. unfold composite, options_composite, squeeze_composite.
  now rewrite !(pscore_perm _ df df' r HP).
Qed.

Lemma score_row_perm w spy (df df' : list RawRow) r :
  Permutation df df' -> score_row w spy df r = score_row w spy df' r.
Proof.
  intros HP. unfold score_row, options_composite, squeeze_composite.
  rewrite !(pscore_perm _ df df' r HP), (composite_perm w spy df df' r HP).
  rewrite (map_ext _ _ (fun r => composite_perm w spy df df' r HP)).
  rewrite (average_rank_perm false _ _ _
             (Permutation_map (composite w spy df') HP)).
  reflexivity.
Qed.

(** C5.  Re-ordering the rows of the metric snapshot re-orders the scored
    rows and changes nothing else: the scored table of a permuted snapshot
    is a permutation of the scored table of the original, so every ticker
    row carries the same sub-scores, the same composite score and the same
    rank in both runs, and so do the sorted results the stage writes. *)
Theorem composite_score_order_invariant w spy (df df' : list RawRow) :
  Permutation df df' ->
  Permutation (score_table w spy df) (score_table w spy df')
  /\ (forall r, In r df ->
        In (score_row w spy df r) (score_table w spy df)
        /\ In (score_row w spy df r) (score_table w spy df')
        /\ Composite_Score (score_row w spy df r)
           = Composite_Score (score_row w spy df' r))
  /\ Permutation (sort composite_before (score_table w spy df))
                 (sort composite_before (score_table w spy df')).
Proof.
  intros HP.
  assert (HT : Permutation (score_table w spy df) (score_table w spy df')).
  { rewrite !score_table_rows.
    rewrite (map_ext _ _ (fun r => score_row_perm w spy df df' r HP)).
    now apply Permutation_map. }
  split; [exact HT|]. split.
  - intros r Hr.
    assert (Hin : In (score_row w spy df r) (score_table w spy df)).
    { rewrite score_table_rows. now apply in_map. }
    split; [exact Hin|]. split.
    + eapply Permutation_in; [exact HT|exact Hin].
    + now rewrite (score_row_perm w spy df df' r HP).
  - rewrite !sort_perm. exact HT.
Qed.

(** C10.  Every scored row of every snapshot has its six sub-scores and its
    composite score in the half-open interval (0, 100], under the weights
    the script configures. *)
Theorem scores_in_0_100 spy (df : list RawRow) (sr : ScoredRow) :
  In sr (score_table SCREENING_WEIGHTS spy df) ->
  in_0_100 (Volume_Score sr)
  /\ in_0_100 (Price_Change_Score sr)
  /\ in_0_100 (Relative_Strength_Score sr)
  /\ in_0_100 (Historical_Vol_Score sr)
  /\ in_0_100 (Options_Score sr)
  /\ in_0_100 (Short_Squeeze_Score sr)
  /\ in_0_100 (Composite_Score sr).
Proof.
  rewrite score_table_rows. intros H. apply in_map_iff in H.
  destruct H as [r [<- Hr]]. simpl. unfold in_0_100.
  pose proof (pscore_bounds (filled 0 Volume_Ratio) df r Hr).
  pose proof (pscore_bounds price_composite df r Hr).
  pose proof (pscore_bounds (relative_strength spy) df r Hr).
  pose proof (pscore_bounds (filled 0 Historical_Vol) df r Hr).
  pose proof (pscore_bounds (filled 0 Options_Proxy) df r Hr).
  pose proof (pscore_bounds (filled 1 Put_Call_Proxy) df r Hr).
  pose proof (pscore_bounds (filled 0 Short_Percent) df r Hr).
  pose proof (pscore_bounds (filled 0 Short_Ratio) df r Hr).
  pose proof (pscore_bounds (filled 0 Price_Change_5d) df r Hr).
  unfold composite, options_composite, squeeze_composite. cbn.
  repeat split; eexists; (split; [reflexivity|]); lra.
Qed.

Lemma scores_in_0_100_witness :
  let sr := score_row SCREENING_WEIGHTS 2 Examples.snapshot
              (Examples.row "BBB" NaN) in
  in_0_100 (Volume_Score sr)
  /\ in_0_100 (Price_Change_Score sr)
  /\ in_0_100 (Relative_Strength_Score sr)
  /\ in_0_100 (Historical_Vol_Score sr)
  /\ in_0_100 (Options_Score sr)
  /\ in_0_100 (Short_Squeeze_Score sr)
  /\ in_0_100 (Composite_Score sr).
Proof.
  apply (scores_in_0_100 2 Examples.snapshot).
  rewrite score_table_rows. right. left. reflexivity.
Defined.

Lemma composite_score_order_invariant_witness :
  Permutation
    (score_table SCREENING_WEIGHTS 2
       [Examples.row "AAA" (Some 1.5); Examples.row "BBB" NaN])
    (score_table SCREENING_WEIGHTS 2
       [Examples.row "BBB" NaN; Examples.row "AAA" (Some 1.5)]).
Proof.
  apply (composite_score_order_invariant SCREENING_WEIGHTS 2
           [Examples.row "AAA" (Some 1.5); Examples.row "BBB" NaN]
           [Examples.row "BBB" NaN; Examples.row "AAA" (Some 1.5)]).
  apply perm_swap.
Defined.

(* ------------------------------------------------------------------ *)
(** ** Missing values *)

Lemma same_inputs_refl spy r : same_inputs spy r r.
Proof. repeat split. Qed.

Lemma all_missing_same_inputs spy r :
  all_missing r -> same_inputs spy r (imputed_defaults (Ticker r)).
Proof.
  intros (H1 & H2 & H3 & H4 & H5 & H6 & H7 & H8 & H9 & H10).
  unfold same_inputs, price_composite, relative_strength, filled. simpl.
  rewrite H1, H2, H4, H5, H6, H7, H8, H9, H10. unfold NaN.
  repeat split.
Qed.

Lemma map_replace_row (g : RawRow -> Q) (df1 df2 : list RawRow) r r' :
  g r = g r' -> map g (df1 ++ r :: df2) = map g (df1 ++ r' :: df2).
Proof. intros E. rewrite !map_app. simpl. now rewrite E. Qed.

Lemma pscore_congr (g : RawRow -> Q) (df df' : list RawRow) x x' :
  map g df = map g df' -> g x = g x' -> pscore g df x = pscore g df' x'.
Proof. intros E1 E2. unfold pscore. now rewrite E1, E2. Qed.

Lemma composite_same_inputs w spy (df1 df2 : list RawRow) r r' x x' :
  same_inputs spy r r' -> same_inputs spy x x' ->
  composite w spy (df1 ++ r :: df2) x = composite w spy (df1 ++ r' :: df2) x'.
Proof.
  intros (R1 & R2 & R3 & R4 & R5 & R6 & R7 & R8 & R9)
         (X1 & X2 & X3 & X4 & X5 & X6 & X7 & X8 & X9).
  unfold composite, options_composite, squeeze_composite.
  repeat match goal with
    | |- context [pscore ?g (df1 ++ r :: df2) x] =>
        rewrite (pscore_congr g (df1 ++ r :: df2) (df1 ++ r' :: df2) x x')
          by (try apply map_replace_row; assumption)
    end.
  reflexivity.
Qed.

Lemma scores_same_inputs w spy (df1 df2 : list RawRow) r r' :
  same_inputs spy r r' ->
  scores (score_row w spy (df1 ++ r :: df2) r)
  = scores (score_row w spy (df1 ++ r' :: df2) r').
Proof.
  intros HR. pose proof HR as (R1 & R2 & R3 & R4 & R5 & R6 & R7 & R8 & R9).
  assert (HM : map (composite w spy (df1 ++ r :: df2)) (df1 ++ r :: df2)
               = map (composite w spy (df1 ++ r' :: df2)) (df1 ++ r' :: df2)).
  { rewrite !map_app. simpl. f_equal; [|f_equal].
    - apply map_ext. intros x.
      apply composite_same_inputs; [exact HR|apply same_inputs_refl].
    - now apply composite_same_inputs.
    - apply map_ext. intros x.
      apply composite_same_inputs; [exact HR|apply same_inputs_refl]. }
  unfold scores, score_row. simpl. rewrite HM.
  rewrite (composite_same_inputs w spy df1 df2 r r' r r' HR HR).
  unfold options_composite, squeeze_composite.
  repeat match goal with
    | |- context [pscore ?g (df1 ++ r :: df2) r] =>
        rewrite (pscore_congr g (df1 ++ r :: df2) (df1 ++ r' :: df2) r r')
          by (try apply map_replace_row; assumption)
    end.
  reflexivity.
Qed.

Lemma score_table_nth w spy (df1 df2 : list RawRow) r :
  nth_error (score_table w spy (df1 ++ r :: df2)) (length df1)
  = Some (score_row w spy (df1 ++ r :: df2) r).
Proof.
  rewrite score_table_rows, nth_error_map, nth_error_app2 by lia.
  now rewrite Nat.sub_diag.
Qed.

Lemma calculate_returns w spy fs df :
  data_dir fs = true -> raw_csv fs = Some df ->
  exists fs',
    calculate_screening_scores_with w spy fs = Returned fs'
    /\ results_csv fs'
       = Some (sort composite_before
                 (score_table w (benchmark_return spy) df)).
Proof.
  intros Hd Hr. unfold calculate_screening_scores_with, path_exists.
  rewrite Hd, Hr. simpl. unfold write_results, to_csv. rewrite Hd.
  eexists. split; reflexivity.
Qed.

Lemma count_before_Qeq asc x y (l : list Q) :
  x == y -> count_before asc x l = count_before asc y l.
Proof.
  intros E. induction l as [|z l IH]; simpl; [reflexivity|].
  rewrite IH. f_equal. order.
Qed.

Lemma percentile_of_Qeq x y (column : list Q) :
  x == y -> percentile_of x column = percentile_of y column.
Proof.
  intros E. unfold percentile_of.
  now rewrite (count_before_Qeq true _ _ _ E), (dups_Qeq _ _ _ E).
Qed.

(** The score the scorer gives a row is the percentile of its raw value in
    the column, counted on the column. *)
Lemma pscore_percentile (g : RawRow -> Q) (df : list RawRow) r :
  In r df -> pscore g df r == percentile_of (g r) (map g df).
Proof.
  intros Hin. unfold pscore, percentile_of.
  assert (Hd : (1 <= dups (g r) (map g df))%nat)
    by (apply dups_pos; now apply in_map).
  rewrite sort_length, average_rank_counts by exact Hd.
  now rewrite tie_group_average_closed by exact Hd.
Qed.

Lemma rank_from_top_counts x (V : list Q) :
  In x V -> average_rank (sort (before false) V) x == rank_from_top x V.
Proof.
  intros Hin. unfold rank_from_top.
  pose proof (dups_pos x V Hin) as Hd.
  rewrite average_rank_counts by exact Hd.
  now rewrite tie_group_average_closed by exact Hd.
Qed.

Lemma scored_composites w spy (df : list RawRow) :
  dropna (map Composite_Score (score_table w spy df))
  = map (composite w spy df) df.
Proof. rewrite score_table_rows, map_map. cbn. apply dropna_map. Qed.

(** What the scorer ranks for a row whose metrics are all missing: the
    defaults. *)
Lemma all_missing_filled r :
  all_missing r ->
  filled 0 Volume_Ratio r = 0 /\ filled 0 Historical_Vol r = 0
  /\ filled 0 Price_Change_1d r = 0 /\ filled 0 Price_Change_5d r = 0
  /\ filled 0 Price_Change_20d r = 0
  /\ filled 0 Options_Proxy r = 0 /\ filled 1 Put_Call_Proxy r = 1
  /\ filled 0 Short_Ratio r = 0 /\ filled 0 Short_Percent r = 0.
Proof.
  intros (H1 & H2 & H3 & H4 & H5 & H6 & H7 & H8 & H9 & H10).
  unfold filled. rewrite H1, H2, H4, H5, H6, H7, H8, H9, H10.
  unfold NaN. repeat split.
Qed.

(** C8.  A ticker whose metrics are all missing is scored, not dropped and
    not a crash.  The stage returns and its results hold a row for the
    ticker.  Each score of that row is computed from the imputed defaults:
    the volume, price-change and volatility scores are the percentile of 0
    in the imputed column, the relative-strength score is the percentile of
    0 minus the benchmark, the options score is 0.7 times the percentile of
    0 among the imputed options proxies plus 0.3 times the percentile of 1
    among the imputed put/call proxies, the short-squeeze score is the
    0.5 / 0.3 / 0.2 blend of the percentiles of 0, and the composite is the
    configured weighted sum of the six.  All of them are numbers, the
    composite in (0, 100], and the rank is the row's rank from the top
    among the composite scores of the table, between 1 and the number of
    rows.  The row has the scores of a ticker whose metrics are the
    defaults (0, and 1 for the put/call proxy).  The benchmark is taken
    finite. *)
Theorem all_missing_ticker_scored spy fs (df1 df2 : list RawRow) r :
  data_dir fs = true ->
  raw_csv fs = Some (df1 ++ r :: df2) ->
  all_missing r ->
  benchmark_finite spy ->
  let df := df1 ++ r :: df2 in
  let b := benchmark_return spy in
  exists fs' rows sr sr0 v p s h o q c k,
    calculate_screening_scores spy fs = Returned fs'
    /\ results_csv fs' = Some rows
    /\ In sr rows
    /\ nth_error (score_table SCREENING_WEIGHTS b df) (length df1) = Some sr
    /\ raw sr = r
    /\ scores sr
       = [Some v; Some p; Some s; Some h; Some o; Some q; Some c; Some k]
    /\ v == percentile_of 0 (imputed 0 Volume_Ratio df)
    /\ p == percentile_of 0 (map price_composite df)
    /\ s == percentile_of (0 - b) (map (relative_strength b) df)
    /\ h == percentile_of 0 (imputed 0 Historical_Vol df)
    /\ o == percentile_of 0 (imputed 0 Options_Proxy df) * 0.7
            + percentile_of 1 (imputed 1 Put_Call_Proxy df) * 0.3
    /\ q == percentile_of 0 (imputed 0 Short_Percent df) * 0.5
            + percentile_of 0 (imputed 0 Short_Ratio df) * 0.3
            + percentile_of 0 (imputed 0 Price_Change_5d df) * 0.2
    /\ c == v * 0.20 + p * 0.25 + s * 0.20 + h * 0.15 + o * 0.10
            + q * 0.10
    /\ 0 < c /\ c <= 100
    /\ k == rank_from_top c
              (dropna (map Composite_Score
                         (score_table SCREENING_WEIGHTS b df)))
    /\ 1 <= k /\ k <= Qof (length df)
    /\ nth_error (score_table SCREENING_WEIGHTS b
                    (df1 ++ imputed_defaults (Ticker r) :: df2))
                 (length df1) = Some sr0
    /\ scores sr = scores sr0.
Proof.
  intros Hd Hr Hm _ df b.
  destruct (calculate_returns SCREENING_WEIGHTS spy fs _ Hd Hr)
    as [fs' [Hrun Hres]].
  fold b in Hres. fold df in Hres.
  assert (Hin : In r df) by (subst df; apply in_or_app; right; now left).
  destruct (all_missing_filled r Hm)
    as (F1 & F2 & F3 & F4 & F5 & F6 & F7 & F8 & F9).
  exists fs', (sort composite_before (score_table SCREENING_WEIGHTS b df)),
    (score_row SCREENING_WEIGHTS b df r),
    (score_row SCREENING_WEIGHTS b
       (df1 ++ imputed_defaults (Ticker r) :: df2)
       (imputed_defaults (Ticker r))),
    (pscore (filled 0 Volume_Ratio) df r),
    (pscore price_composite df r),
    (pscore (relative_strength b) df r),
    (pscore (filled 0 Historical_Vol) df r),
    (options_composite df r), (squeeze_composite df r),
    (composite SCREENING_WEIGHTS b df r),
    (average_rank
       (sort (before false) (map (composite SCREENING_WEIGHTS b df) df))
       (composite SCREENING_WEIGHTS b df r)).
  assert (HC : In (composite SCREENING_WEIGHTS b df r)
                  (map (composite SCREENING_WEIGHTS b df) df))
    by now apply in_map.
  split; [exact Hrun|]. split; [exact Hres|]. split.
  { eapply Permutation_in; [symmetry; apply sort_perm|].
    rewrite score_table_rows. now apply in_map. }
  split; [apply score_table_nth|]. split; [reflexivity|].
  split; [reflexivity|]. unfold imputed.
  split; [now rewrite pscore_percentile, F1 by exact Hin|]. split.
  { rewrite pscore_percentile by exact Hin.
    rewrite (percentile_of_Qeq (price_composite r) 0); [reflexivity|].
    unfold price_composite. rewrite F3, F4, F5. reflexivity. }
  split.
  { rewrite pscore_percentile by exact Hin.
    unfold relative_strength at 1. now rewrite F5. }
  split; [now rewrite pscore_percentile, F2 by exact Hin|]. split.
  { unfold options_composite.
    now rewrite !pscore_percentile, F6, F7 by exact Hin. }
  split.
  { unfold squeeze_composite.
    now rewrite !pscore_percentile, F9, F8, F4 by exact Hin. }
  split; [reflexivity|].
  assert (HB : 0 < composite SCREENING_WEIGHTS b df r
               /\ composite SCREENING_WEIGHTS b df r <= 100).
  { pose proof (pscore_bounds (filled 0 Volume_Ratio) df r Hin).
    pose proof (pscore_bounds price_composite df r Hin).
    pose proof (pscore_bounds (relative_strength b) df r Hin).
    pose proof (pscore_bounds (filled 0 Historical_Vol) df r Hin).
    pose proof (pscore_bounds (filled 0 Options_Proxy) df r Hin).
    pose proof (pscore_bounds (filled 1 Put_Call_Proxy) df r Hin).
    pose proof (pscore_bounds (filled 0 Short_Percent) df r Hin).
    pose proof (pscore_bounds (filled 0 Short_Ratio) df r Hin).
    pose proof (pscore_bounds (filled 0 Price_Change_5d) df r Hin).
    unfold composite, options_composite, squeeze_composite. cbn.
    split; lra. }
  split; [apply HB|]. split; [apply HB|]. split.
  { rewrite scored_composites. now apply rank_from_top_counts. }
  destruct (average_rank_bounds false _ _ HC) as [K1 K2].
  rewrite length_map in K2.
  split; [exact K1|]. split; [exact K2|].
  split; [apply score_table_nth|].
  apply scores_same_inputs, all_missing_same_inputs, Hm.
Qed.

Lemma all_missing_ticker_scored_witness :
  exists fs' rows sr sr0 v p s h o q c k,
    calculate_screening_scores (Raised ProviderError)
      (Examples.with_raw Examples.snapshot) = Returned fs'
    /\ results_csv fs' = Some rows
    /\ In sr rows
    /\ nth_error (score_table SCREENING_WEIGHTS
                    (benchmark_return (Raised ProviderError))
                    ([Examples.row "AAA" (Some 1.5)]
                     ++ Examples.row "BBB" NaN
                     :: [Examples.row "CCC" (Some 3)]))
                 (length [Examples.row "AAA" (Some 1.5)]) = Some sr
    /\ raw sr = Examples.row "BBB" NaN
    /\ scores sr
       = [Some v; Some p; Some s; Some h; Some o; Some q; Some c; Some k]
    /\ v == percentile_of 0 (imputed 0 Volume_Ratio Examples.snapshot)
    /\ p == percentile_of 0 (map price_composite Examples.snapshot)
    /\ s == percentile_of (0 - benchmark_return (Raised ProviderError))
              (map (relative_strength
                      (benchmark_return (Raised ProviderError)))
                 Examples.snapshot)
    /\ h == percentile_of 0 (imputed 0 Historical_Vol Examples.snapshot)
    /\ o == percentile_of 0 (imputed 0 Options_Proxy Examples.snapshot)
            * 0.7
            + percentile_of 1 (imputed 1 Put_Call_Proxy Examples.snapshot)
              * 0.3
    /\ q == percentile_of 0 (imputed 0 Short_Percent Examples.snapshot)
            * 0.5
            + percentile_of 0 (imputed 0 Short_Ratio Examples.snapshot)
              * 0.3
            + percentile_of 0 (imputed 0 Price_Change_5d Examples.snapshot)
              * 0.2
    /\ c == v * 0.20 + p * 0.25 + s * 0.20 + h * 0.15 + o * 0.10
            + q * 0.10
    /\ 0 < c /\ c <= 100
    /\ k == rank_from_top c
              (dropna (map Composite_Score
                         (score_table SCREENING_WEIGHTS
                            (benchmark_return (Raised ProviderError))
                            Examples.snapshot)))
    /\ 1 <= k /\ k <= Qof (length Examples.snapshot)
    /\ nth_error (score_table SCREENING_WEIGHTS
                    (benchmark_return (Raised ProviderError))
                    ([Examples.row "AAA" (Some 1.5)]
                     ++ imputed_defaults "BBB"
                     :: [Examples.row "CCC" (Some 3)]))
                 (length [Examples.row "AAA" (Some 1.5)]) = Some sr0
    /\ scores sr = scores sr0.
Proof.
  refine (all_missing_ticker_scored (Raised ProviderError)
            (Examples.with_raw Examples.snapshot)
            [Examples.row "AAA" (Some 1.5)] [Examples.row "CCC" (Some 3)]
            (Examples.row "BBB" NaN) _ _ _ _).
  - reflexivity.
  - reflexivity.
  - repeat split.
  - exact I.
Defined.

(* ------------------------------------------------------------------ *)
(** ** The weight configuration *)

(** C2, as the script has it.  The six configured weights sum to exactly
    one.  The scorer checks no weight configuration: whatever the weights,
    it returns without raising, and the composite score of every row is the
    plain weighted sum of its six sub-scores with the weights as given,
    never rescaled. *)
Theorem weights_used_as_configured :
  weight_sum SCREENING_WEIGHTS == 1
  /\ (forall w spy fs,
        exists fs', calculate_screening_scores_with w spy fs = Returned fs')
  /\ (forall w spy df sr,
        In sr (score_table w spy df) ->
        exists v p s h o q,
          Volume_Score sr = Some v /\ Price_Change_Score sr = Some p
          /\ Relative_Strength_Score sr = Some s
          /\ Historical_Vol_Score sr = Some h
          /\ Options_Score sr = Some o /\ Short_Squeeze_Score sr = Some q
          /\ Composite_Score sr
             = Some (v * volume_score w + p * price_change_score w
                     + s * relative_strength_score w
                     + h * historical_vol_score w
                     + o * options_score w + q * short_squeeze_score w)).
Proof.
  split; [reflexivity|]. split.
  - intros w spy fs. unfold calculate_screening_scores_with.
    destruct (path_exists fs (raw_csv fs)) eqn:E; simpl.
    + unfold path_exists in E. apply andb_prop in E. destruct E as [E _].
      unfold write_results, to_csv. rewrite E. eexists. reflexivity.
    + eexists. reflexivity.
  - intros w spy df sr H. rewrite score_table_rows in H.
    apply in_map_iff in H. destruct H as [r [<- _]].
    do 6 eexists. simpl. repeat split.
Qed.

Lemma weights_used_as_configured_witness :
  weight_sum SCREENING_WEIGHTS == 1
  /\ (exists fs',
        calculate_screening_scores_with Examples.doubled_weights
          (Raised ProviderError) (Examples.with_raw Examples.snapshot)
        = Returned fs')
  /\ exists v p s h o q,
      Volume_Score
        (score_row Examples.doubled_weights 2 Examples.snapshot
           (Examples.row "BBB" NaN)) = Some v
      /\ Composite_Score
           (score_row Examples.doubled_weights 2 Examples.snapshot
              (Examples.row "BBB" NaN))
         = Some (v * 0.40 + p * 0.50 + s * 0.40 + h * 0.30 + o * 0.20
                 + q * 0.20).
Proof.
  destruct weights_used_as_configured as [H1 [H2 H3]].
  split; [exact H1|]. split; [apply H2|].
  destruct (H3 Examples.doubled_weights 2 Examples.snapshot
              (score_row Examples.doubled_weights 2 Examples.snapshot
                 (Examples.row "BBB" NaN)))
    as (v & p & s & h & o & q & Hv & _ & _ & _ & _ & _ & Hc).
  - rewrite score_table_rows. right. left. reflexivity.
  - exists v, p, s, h, o, q. split; [exact Hv|exact Hc].
Defined.

(** C2, against the claim: weights that sum to two are not rejected; the
    stage returns and writes results in which the single ticker's composite
    score is 200. *)
Lemma unvalidated_weights_are_accepted :
  ~ weights_valid Examples.doubled_weights
  /\ exists fs' sr,
      calculate_screening_scores_with Examples.doubled_weights
        (Raised ProviderError)
        (Examples.with_raw [Examples.row "AAA" (Some 1.5)])
      = Returned fs'
      /\ results_csv fs' = Some [sr]
      /\ exists c, Composite_Score sr = Some c /\ c == 200.
Proof.
  split.
  - unfold weights_valid. intros [_ H]. vm_compute in H. apply H. reflexivity.
  - do 2 eexists. split; [reflexivity|]. split; [reflexivity|].
    eexists. split; [reflexivity|]. reflexivity.
Qed.

(* ------------------------------------------------------------------ *)
(** ** The net-income filter *)

Lemma cells_rule (newest middle oldest : cell) :
  (forallb gt0 [newest; middle; oldest]
   && (if cell_le oldest middle then cell_le middle newest else false))%bool
  = true
  <-> exists n m o,
      newest = Some n /\ middle = Some m /\ oldest = Some o
      /\ profitable_and_growing n m o.
Proof.
  unfold profitable_and_growing. split.
  - intros H. apply andb_prop in H. destruct H as [Hp Hn].
    simpl in Hp. rewrite andb_true_r in Hp.
    apply andb_prop in Hp. destruct Hp as [P0 Hp].
    apply andb_prop in Hp. destruct Hp as [P1 P2].
    destruct newest as [n|], middle as [m|], oldest as [o|];
      try discriminate.
    exists n, m, o. simpl in *.
    destruct (Qle_bool o m) eqn:E; [|discriminate].
    q2p. repeat split; lra.
  - intros (n & m & o & -> & -> & -> & H0 & H1 & H2 & H3 & H4). simpl.
    replace (Qle_bool n 0) with false by (symmetry; order).
    replace (Qle_bool m 0) with false by (symmetry; order).
    replace (Qle_bool o 0) with false by (symmetry; order).
    replace (Qle_bool o m) with true by (symmetry; order).
    simpl. order.
Qed.

Lemma keeps_rule fin t f (newest middle oldest : cell) rest :
  fin t = Returned f ->
  in_index f "Net Income" = true ->
  (3 <= length (columns f))%nat ->
  loc f "Net Income" = newest :: middle :: oldest :: rest ->
  keeps fin t = true
  <-> exists n m o,
      newest = Some n /\ middle = Some m /\ oldest = Some o
      /\ profitable_and_growing n m o.
Proof.
  intros Hf Hi Hc Hl. rewrite <- cells_rule.
  unfold keeps, net_income_check. rewrite Hf. simpl. rewrite Hi, Hl.
  replace (Nat.ltb (length (columns f)) 3) with false
    by (symmetry; apply Nat.ltb_ge; exact Hc).
  simpl. destruct (cell_le oldest middle); simpl; tauto.
Qed.

Lemma keeps_no_data fin t f :
  fin t = Returned f ->
  in_index f "Net Income" = false \/ (length (columns f) < 3)%nat ->
  keeps fin t = false.
Proof.
  intros Hf H. unfold keeps, net_income_check. rewrite Hf. simpl.
  destruct H as [H|H].
  - rewrite H. reflexivity.
  - apply Nat.ltb_lt in H. rewrite H, orb_true_r. reflexivity.
Qed.

(** C1.  The Fundamental Filter writes the tickers it keeps, and for every
    ticker of the universe: when its financials have a Net Income line and
    at least three fiscal periods, it is kept if and only if the three most
    recent net incomes are numbers, all strictly positive, and do not
    decrease from the oldest to the newest; when the financials have fewer
    than three periods or no Net Income line, it is not kept. *)
Theorem filter_by_net_income_rule fin fs (tickers : list string) :
  data_dir fs = true ->
  tickers_csv fs = Some tickers ->
  exists fs' kept,
    filter_by_net_income fin fs = Returned fs'
    /\ filtered_csv fs' = Some kept
    /\ forall t,
        (forall f newest middle oldest rest,
            fin t = Returned f ->
            in_index f "Net Income" = true ->
            (3 <= length (columns f))%nat ->
            loc f "Net Income" = newest :: middle :: oldest :: rest ->
            (In t kept
             <-> In t tickers
                 /\ exists n m o,
                     newest = Some n /\ middle = Some m /\ oldest = Some o
                     /\ profitable_and_growing n m o))
        /\ (forall f,
               fin t = Returned f ->
               in_index f "Net Income" = false
               \/ (length (columns f) < 3)%nat ->
               ~ In t kept).
Proof.
  intros Hd Ht. unfold filter_by_net_income, path_exists.
  rewrite Hd, Ht. simpl. unfold write_filtered, to_csv. rewrite Hd.
  do 2 eexists. split; [reflexivity|]. split; [reflexivity|].
  intros t. split.
  - intros f newest middle oldest rest Hf Hi Hc Hl.
    rewrite filter_In, (keeps_rule fin t f _ _ _ _ Hf Hi Hc Hl). tauto.
  - intros f Hf H Hin. apply filter_In in Hin. destruct Hin as [_ Hk].
    rewrite (keeps_no_data fin t f Hf H) in Hk. discriminate.
Qed.

(** The end-to-end scenario of the filter: A kept, B and C dropped. *)
Lemma filter_scenario :
  exists fs',
    filter_by_net_income Examples.scenario_financials
      (Examples.with_tickers ["A"; "B"; "C"]%string) = Returned fs'
    /\ filtered_csv fs' = Some ["A"%string].
Proof. eexists. split; reflexivity. Qed.

Lemma filter_by_net_income_rule_witness :
  exists fs' kept,
    filter_by_net_income Examples.scenario_financials
      (Examples.with_tickers ["A"; "B"; "C"]%string) = Returned fs'
    /\ filtered_csv fs' = Some kept
    /\ forall t,
        (forall f newest middle oldest rest,
            Examples.scenario_financials t = Returned f ->
            in_index f "Net Income" = true ->
            (3 <= length (columns f))%nat ->
            loc f "Net Income" = newest :: middle :: oldest :: rest ->
            (In t kept
             <-> In t ["A"; "B"; "C"]%string
                 /\ exists n m o,
                     newest = Some n /\ middle = Some m /\ oldest = Some o
                     /\ profitable_and_growing n m o))
        /\ (forall f,
               Examples.scenario_financials t = Returned f ->
               in_index f "Net Income" = false
               \/ (length (columns f) < 3)%nat ->
               ~ In t kept).
Proof.
  apply (filter_by_net_income_rule Examples.scenario_financials
           (Examples.with_tickers ["A"; "B"; "C"]%string)
           ["A"; "B"; "C"]%string); reflexivity.
Defined.

(* ------------------------------------------------------------------ *)
(** ** The metrics collector: volume ratio and price changes *)

Lemma nth_error_last {A} (l : list A) d :
  l <> [] -> nth_error l (length l - 1) = Some (last l d).
Proof.
  induction l as [|a l IH]; [congruence|]. intros _.
  destruct l as [|b l]; [reflexivity|].
  change (last (a :: b :: l) d) with (last (b :: l) d).
  rewrite <- IH by discriminate.
  replace (length (a :: b :: l) - 1)%nat with (S (length (b :: l) - 1))
    by (simpl; lia).
  reflexivity.
Qed.

Lemma iloc_neg_nth {A} (l : list A) k d :
  (1 <= k <= length l)%nat ->
  iloc_neg l k = Returned (nth (length l - k) l d).
Proof.
  intros [H1 H2]. unfold iloc_neg, iloc.
  replace (Nat.leb 1 k) with true by (symmetry; now apply Nat.leb_le).
  replace (Nat.leb k (length l)) with true
    by (symmetry; now apply Nat.leb_le).
  simpl. rewrite (nth_error_nth' l d) by lia. reflexivity.
Qed.

Lemma iloc_neg_last {A} (l : list A) d :
  (1 <= length l)%nat -> iloc_neg l 1 = Returned (last l d).
Proof.
  intros H. unfold iloc_neg, iloc.
  replace (Nat.leb 1 (length l)) with true
    by (symmetry; now apply Nat.leb_le).
  simpl. rewrite (nth_error_last l d); [reflexivity|].
  destruct l; [simpl in H; lia|discriminate].
Qed.

(** The last entry of the rolling mean is the mean of the last [window]
    entries. *)
Lemma rolling_mean_last window (l : list Q) :
  (1 <= window <= length l)%nat ->
  iloc_neg (rolling_mean window l) 1
  = Returned (Some (mean (skipn (length l - window) l))).
Proof.
  intros [H1 H2]. unfold iloc_neg, iloc, rolling_mean.
  rewrite length_map, length_seq.
  replace (Nat.leb 1 (length l)) with true
    by (symmetry; apply Nat.leb_le; lia).
  cbn [Nat.leb andb]. rewrite nth_error_map, nth_error_seq.
  replace (Nat.ltb (length l - 1) (length l)) with true
    by (symmetry; apply Nat.ltb_lt; lia).
  replace (1 + (length l - 1))%nat with (length l) by lia.
  cbn [option_map].
  replace (Nat.ltb (length l) window) with false
    by (symmetry; apply Nat.ltb_ge; lia).
  rewrite firstn_all2; [reflexivity|]. rewrite length_skipn. lia.
Qed.

Lemma volume_metrics_short (h : list Bar) :
  (length h < 20)%nat -> volume_metrics h = Returned (NaN, NaN).
Proof.
  intros H. unfold volume_metrics.
  replace (Nat.leb 20 (length h)) with false
    by (symmetry; apply Nat.leb_gt; exact H).
  now rewrite andb_false_r.
Qed.

Lemma volume_metrics_long (h : list Bar) :
  (20 <= length h)%nat ->
  exists avg,
    volume_metrics h
    = Returned
        (Some (round (if negb (Qle_bool (trailing_mean_volume h) 0)
                      then latest_volume h / trailing_mean_volume h
                      else 0) 2),
         Some avg).
Proof.
  intros H. unfold volume_metrics.
  replace (Nat.leb 20 (length h)) with true
    by (symmetry; now apply Nat.leb_le).
  replace (Nat.eqb (length h) 0) with false
    by (symmetry; apply Nat.eqb_neq; lia).
  assert (Hl : length (volumes h) = length h) by apply length_map.
  simpl. rewrite (iloc_neg_last _ 0) by lia.
  rewrite rolling_mean_last by lia. simpl. rewrite Hl.
  fold (trailing_mean_volume h). fold (latest_volume h).
  eexists. destruct (Qle_bool (trailing_mean_volume h) 0); reflexivity.
Qed.

Lemma price_change_metrics_short (h : list Bar) :
  (length h < 21)%nat -> price_change_metrics h = Returned (NaN, NaN, NaN).
Proof.
  intros H. unfold price_change_metrics.
  replace (Nat.leb 21 (length h)) with false
    by (symmetry; apply Nat.leb_gt; exact H).
  now rewrite andb_false_r.
Qed.

Lemma price_change_metrics_long (h : list Bar) :
  (21 <= length h)%nat ->
  price_change_metrics h
  = Returned (Some (pct_change (latest_close h) (close_days_ago 1 h)),
              Some (pct_change (latest_close h) (close_days_ago 5 h)),
              Some (pct_change (latest_close h) (close_days_ago 20 h))).
Proof.
  intros H. unfold price_change_metrics.
  replace (Nat.leb 21 (length h)) with true
    by (symmetry; now apply Nat.leb_le).
  replace (Nat.leb 6 (length h)) with true
    by (symmetry; apply Nat.leb_le; lia).
  replace (Nat.leb 2 (length h)) with true
    by (symmetry; apply Nat.leb_le; lia).
  replace (Nat.eqb (length h) 0) with false
    by (symmetry; apply Nat.eqb_neq; lia).
  assert (Hl : length (closes h) = length h) by apply length_map.
  simpl. rewrite (iloc_neg_last _ 0) by lia.
  rewrite !(iloc_neg_nth _ _ 0) by lia. simpl.
  unfold close_days_ago, latest_close. rewrite Hl.
  replace (length h - 1 - 1)%nat with (length h - 2)%nat by lia.
  replace (length h - 1 - 5)%nat with (length h - 6)%nat by lia.
  replace (length h - 1 - 20)%nat with (length h - 21)%nat by lia.
  reflexivity.
Qed.

(** The bag of a ticker whose provider calls succeed holds the volume and
    price metrics of its 30-day history: no step of the collector raises. *)
Lemma bag_of_quote vol (d : TickerData) :
  exists vm pm,
    volume_metrics (history_30d d) = Returned vm
    /\ price_change_metrics (history_30d d) = Returned pm
    /\ volume_ratio (get_all_screening_metrics vol (Returned d)) = fst vm
    /\ change_1d (get_all_screening_metrics vol (Returned d)) = fst (fst pm)
    /\ change_5d (get_all_screening_metrics vol (Returned d)) = snd (fst pm)
    /\ change_20d (get_all_screening_metrics vol (Returned d)) = snd pm.
Proof.
  assert (Hv : exists vm, volume_metrics (history_30d d) = Returned vm).
  { destruct (Nat.lt_ge_cases (length (history_30d d)) 20) as [H|H].
    - eexists. now apply volume_metrics_short.
    - destruct (volume_metrics_long _ H) as [avg E]. eexists. exact E. }
  assert (Hp : exists pm, price_change_metrics (history_30d d) = Returned pm).
  { destruct (Nat.lt_ge_cases (length (history_30d d)) 21) as [H|H].
    - eexists. now apply price_change_metrics_short.
    - eexists. now apply price_change_metrics_long. }
  destruct Hv as [vm Hv], Hp as [pm Hp]. exists vm, pm.
  unfold get_all_screening_metrics. simpl. rewrite Hv, Hp. simpl.
  repeat split; reflexivity.
Qed.

(** C6, as the script has it.  The volume ratio of a ticker is missing when
    its 30-day history has fewer than 20 days.  With 20 days or more it is
    the most recent day's volume divided by the mean volume of the last 20
    days, rounded to two decimals, when that mean is positive, and zero
    (not missing) when the mean is not positive. *)
Theorem volume_ratio_rule vol (d : TickerData) :
  let h := history_30d d in
  let bag := get_all_screening_metrics vol (Returned d) in
  ((length h < 20)%nat -> volume_ratio bag = NaN)
  /\ ((20 <= length h)%nat -> 0 < trailing_mean_volume h ->
      volume_ratio bag
      = Some (round (latest_volume h / trailing_mean_volume h) 2))
  /\ ((20 <= length h)%nat -> trailing_mean_volume h <= 0 ->
      exists v, volume_ratio bag = Some v /\ v == 0).
Proof.
  intros h bag.
  destruct (bag_of_quote vol d) as (vm & pm & Hv & _ & E & _).
  fold h in Hv. fold bag in E. rewrite E. clear E.
  split; [|split].
  - intros H. rewrite (volume_metrics_short h H) in Hv.
    inversion Hv. reflexivity.
  - intros H Hpos. destruct (volume_metrics_long h H) as [avg E].
    rewrite E in Hv. inversion Hv. simpl.
    replace (Qle_bool (trailing_mean_volume h) 0) with false
      by (symmetry; order).
    reflexivity.
  - intros H Hneg. destruct (volume_metrics_long h H) as [avg E].
    rewrite E in Hv. inversion Hv. simpl.
    replace (Qle_bool (trailing_mean_volume h) 0) with true
      by (symmetry; order).
    eexists. split; reflexivity.
Qed.

Lemma volume_ratio_rule_witness :
  volume_ratio (get_all_screening_metrics Examples.flat_volatility
                  (Returned (Examples.quote Examples.twenty_five_days)))
  = Some (round (latest_volume Examples.twenty_five_days
                 / trailing_mean_volume Examples.twenty_five_days) 2).
Proof.
  apply (volume_ratio_rule Examples.flat_volatility
           (Examples.quote Examples.twenty_five_days)).
  - simpl. lia.
  - reflexivity.
Defined.

(** C6, against the claim: twenty days without a trade have a 20-day mean
    volume of zero, and the volume ratio is the number zero, not missing. *)
Lemma zero_mean_volume_is_not_missing :
  trailing_mean_volume Examples.no_trading <= 0
  /\ volume_ratio (get_all_screening_metrics Examples.flat_volatility
                     (Returned (Examples.quote Examples.no_trading)))
     <> NaN
  /\ exists v,
      volume_ratio (get_all_screening_metrics Examples.flat_volatility
                      (Returned (Examples.quote Examples.no_trading)))
      = Some v /\ v == 0.
Proof.
  split; [discriminate|]. split; [discriminate|].
  eexists. split; reflexivity.
Qed.

(** C7, as the script has it.  With fewer than 21 days of 30-day history,
    the three price changes of a ticker are all missing.  With 21 days or
    more, each of the 1-, 5- and 20-day changes is the percentage change of
    the latest close against the close that many trading days before,
    rounded to two decimals, when that earlier close is positive, and zero
    when it is not. *)
Theorem price_change_rule vol (d : TickerData) :
  let h := history_30d d in
  let bag := get_all_screening_metrics vol (Returned d) in
  ((length h < 21)%nat ->
   change_1d bag = NaN /\ change_5d bag = NaN /\ change_20d bag = NaN)
  /\ ((21 <= length h)%nat ->
      forall N change,
        (N, change) = (1%nat, change_1d bag)
        \/ (N, change) = (5%nat, change_5d bag)
        \/ (N, change) = (20%nat, change_20d bag) ->
        (0 < close_days_ago N h -> change = Some (percentage_change h N))
        /\ (close_days_ago N h <= 0 -> change = Some 0)).
Proof.
  intros h bag.
  destruct (bag_of_quote vol d) as (vm & pm & _ & Hp & _ & E1 & E5 & E20).
  fold h in Hp. fold bag in E1, E5, E20. rewrite E1, E5, E20.
  clear E1 E5 E20. split.
  - intros H. rewrite (price_change_metrics_short h H) in Hp.
    inversion Hp. repeat split.
  - intros H N change HN.
    rewrite (price_change_metrics_long h H) in Hp.
    inversion Hp; subst pm; clear Hp. simpl in *.
    unfold percentage_change, pct_change.
    destruct HN as [E|[E|E]]; inversion E; subst N change; clear E;
      (split; intros Hc; unfold pct_change;
       match goal with
       | |- context [Qle_bool ?a 0] => destruct (Qle_bool a 0) eqn:B
       end; simpl; try reflexivity; exfalso; order).
Qed.

Lemma price_change_rule_witness :
  change_5d (get_all_screening_metrics Examples.flat_volatility
               (Returned (Examples.quote Examples.twenty_five_days)))
  = Some (percentage_change Examples.twenty_five_days 5).
Proof.
  refine (proj1 (proj2 (price_change_rule Examples.flat_volatility
                          (Examples.quote Examples.twenty_five_days))
                   _ 5%nat _ _) _).
  - simpl. lia.
  - right. left. reflexivity.
  - reflexivity.
Defined.

(** C7, against the claim: with ten days of history the 20-day change is
    missing, not zero, and the 1-day and 5-day changes, for which ten days
    are enough, are missing too. *)
Lemma short_history_changes_are_missing :
  length Examples.ten_days = 10%nat
  /\ change_20d (get_all_screening_metrics Examples.flat_volatility
                   (Returned (Examples.quote Examples.ten_days))) = NaN
  /\ change_20d (get_all_screening_metrics Examples.flat_volatility
                   (Returned (Examples.quote Examples.ten_days)))
     <> Some 0
  /\ change_1d (get_all_screening_metrics Examples.flat_volatility
                  (Returned (Examples.quote Examples.ten_days))) = NaN
  /\ change_5d (get_all_screening_metrics Examples.flat_volatility
                  (Returned (Examples.quote Examples.ten_days))) = NaN.
Proof.
  split; [reflexivity|]. split; [reflexivity|]. split; [discriminate|].
  split; reflexivity.
Qed.

(* ------------------------------------------------------------------ *)
(** ** The ticker universe when the listing cannot be parsed *)

Lemma unparseable_no_tickers (listing : outcome (list Table)) :
  unparseable listing -> get_sp500_tickers listing = [].
Proof.
  intros H. destruct H as [e| |df rest H1 H2]; unfold get_sp500_tickers;
    simpl; try reflexivity.
  now rewrite H1, H2.
Qed.

(** C9, as the script has it.  When the listing cannot be parsed,
    [get_sp500_tickers] returns the empty list instead of raising, and
    [create_dataframe_with_tickers] returns at once: it creates no data
    directory and writes no universe snapshot.  The driver does not stop
    there: it goes on to the three later stages, which run on the files
    already present; with a data directory and no universe snapshot, the
    filter writes an empty snapshot and so do the collector and the
    scorer. *)
Theorem unparseable_listing_rule env test_mode test_count fs :
  unparseable (read_html env) ->
  get_sp500_tickers (read_html env) = []
  /\ create_dataframe_with_tickers (read_html env) test_mode test_count fs
     = Returned fs
  /\ main env test_mode test_count fs
     = (fs2 <- filter_by_net_income (financials env) fs ;;
        fs3 <- add_all_screening_metrics (log_return_volatility env)
                 (market env) fs2 ;;
        calculate_screening_scores (spy_history env) fs3)
  /\ (data_dir fs = true -> tickers_csv fs = None ->
      exists fs',
        main env test_mode test_count fs = Returned fs'
        /\ tickers_csv fs' = None
        /\ filtered_csv fs' = Some []
        /\ raw_csv fs' = Some []
        /\ results_csv fs' = Some []).
Proof.
  intros H. pose proof (unparseable_no_tickers _ H) as E.
  assert (Hc : create_dataframe_with_tickers (read_html env) test_mode
                 test_count fs = Returned fs).
  { unfold create_dataframe_with_tickers. now rewrite E. }
  split; [exact E|]. split; [exact Hc|]. split.
  - unfold main. rewrite Hc. reflexivity.
  - intros Hd Ht. unfold main. rewrite Hc. clear Hc.
    destruct fs as [dir f1 f2 f3 f4]. simpl in Hd, Ht. subst dir f1.
    eexists. split; [reflexivity|]. repeat split.
Qed.

Lemma unparseable_listing_rule_witness :
  get_sp500_tickers Examples.listing_without_symbols = []
  /\ create_dataframe_with_tickers Examples.listing_without_symbols false 10
       Examples.empty_data_dir
     = Returned Examples.empty_data_dir.
Proof.
  destruct (unparseable_listing_rule Examples.failing_listing_run false 10
              Examples.empty_data_dir) as (H1 & H2 & _).
  - apply no_symbol_column; reflexivity.
  - split; [exact H1|exact H2].
Defined.

(** C9, against the claim: the listing has no symbol column, yet the run
    does not stop after the Universe Builder; the later stages run and
    leave their (empty) snapshots behind. *)
Lemma pipeline_runs_on_after_unparseable_listing :
  unparseable (read_html Examples.failing_listing_run)
  /\ exists fs',
      main Examples.failing_listing_run false 10 Examples.empty_data_dir
      = Returned fs'
      /\ fs' <> Examples.empty_data_dir
      /\ tickers_csv fs' = None
      /\ filtered_csv fs' = Some []
      /\ raw_csv fs' = Some []
      /\ results_csv fs' = Some [].
Proof.
  split; [apply no_symbol_column; reflexivity|].
  eexists. split; [reflexivity|]. split; [discriminate|]. repeat split.
Qed.

(* ------------------------------------------------------------------ *)
(** ** Further properties: rounding *)

Lemma round_half_even_error (x : Q) :
  - (1 # 2) <= inject_Z (round_half_even x) - x
  /\ inject_Z (round_half_even x) - x <= 1 # 2.
Proof.
  unfold round_half_even.
  pose proof (Qfloor_le x) as H1. pose proof (Qlt_floor x) as H2.
  rewrite inject_Z_plus in H2. change (inject_Z 1) with 1 in H2.
  destruct (Qcompare_spec (x - inject_Z (Qfloor x)) (1 # 2)) as [E|E|E].
  - destruct (Z.even (Qfloor x));
      rewrite ?inject_Z_plus; change (inject_Z 1) with 1; split; lra.
  - split; lra.
  - rewrite inject_Z_plus. change (inject_Z 1) with 1. split; lra.
Qed.

(** Rounding to two decimals moves a number by at most half a cent. *)
Lemma round2_error (x : Q) :
  - (1 # 200) <= round x 2 - x /\ round x 2 - x <= 1 # 200.
Proof.
  unfold round. change (inject_Z (10 ^ Z.of_nat 2)) with 100.
  destruct (round_half_even_error (x * 100)) as [H1 H2].
  unfold Qdiv. change (/ 100) with (1 # 100). split; lra.
Qed.

Lemma round_0 n : round 0 n == 0.
Proof.
  unfold round.
  assert (E : round_half_even (0 * inject_Z (10 ^ Z.of_nat n)) = 0%Z)
    by reflexivity.
  rewrite E. unfold Qdiv. apply Qmult_0_l.
Qed.

(* ------------------------------------------------------------------ *)
(** ** Further properties: the metrics collector *)

(* ------------------------------------------------------------------ *)
(** ** Further properties: the metrics collector *)

Lemma volume_metrics_exact (h : list Bar) :
  (20 <= length h)%nat ->
  volume_metrics h
  = Returned
      (Some (round (if negb (Qle_bool (trailing_mean_volume h) 0)
                    then latest_volume h / trailing_mean_volume h
                    else 0) 2),
       Some (inject_Z (Z.quot (Qnum (trailing_mean_volume h))
                              (Zpos (Qden (trailing_mean_volume h)))))).
Proof.
  intros H. unfold volume_metrics.
  replace (Nat.leb 20 (length h)) with true
    by (symmetry; now apply Nat.leb_le).
  replace (Nat.eqb (length h) 0) with false
    by (symmetry; apply Nat.eqb_neq; lia).
  assert (Hl : length (volumes h) = length h) by apply length_map.
  cbn [negb andb bind]. rewrite (iloc_neg_last _ 0) by lia.
  rewrite rolling_mean_last by lia. cbn [bind]. rewrite Hl.
  fold (trailing_mean_volume h). fold (latest_volume h).
  destruct (Qle_bool (trailing_mean_volume h) 0) eqn:E;
    unfold gt0, int; rewrite E; reflexivity.
Qed.

(** With data from the provider no step of the collector raises: the bag is
    built from the four sections. *)
Lemma bag_of_quote_full vol (d : TickerData) :
  exists vm pm,
    volume_metrics (history_30d d) = Returned vm
    /\ price_change_metrics (history_30d d) = Returned pm
    /\ get_all_screening_metrics vol (Returned d)
       = {| hist_vol_1y :=
              if (negb (Nat.eqb (length (history_1y d)) 0)
                  && Nat.ltb 50 (length (history_1y d)))%bool
              then Some (round (vol (closes (history_1y d))) 2)
              else NaN;
            volume_ratio := fst vm;
            avg_volume_20d := snd vm;
            change_1d := fst (fst pm);
            change_5d := snd (fst pm);
            change_20d := snd pm;
            options_proxy :=
              option_map (fun v => round v 4) (fst (options_metrics d));
            put_call_proxy :=
              option_map (fun v => round v 4) (snd (options_metrics d));
            short_ratio := Some (round (get_or_0 (shortRatio d)) 2);
            short_percent :=
              Some (round (get_or_0 (shortPercentOfFloat d)) 2) |}.
Proof.
  destruct (bag_of_quote vol d) as (vm & pm & Hv & Hp & _).
  exists vm, pm. split; [exact Hv|]. split; [exact Hp|].
  unfold get_all_screening_metrics. cbn [bind try_except].
  rewrite Hv, Hp. reflexivity.
Qed.



Lemma Qsum_nonneg (l : list Q) : Forall (fun v => 0 <= v) l -> 0 <= Qsum l.
Proof.
  induction 1 as [|v l Hv _ IH]; simpl; [apply Qle_refl|]. lra.
Qed.

Lemma Forall_skipn_keep {A} (P : A -> Prop) (l : list A) n :
  Forall P l -> Forall P (skipn n l).
Proof.
  revert l. induction n as [|n IH]; intros l H; simpl; [exact H|].
  destruct H; [constructor|]. now apply IH.
Qed.

Lemma truncation_of_nonneg (m : Q) :
  0 <= m ->
  let k := Z.quot (Qnum m) (Zpos (Qden m)) in
  (0 <= k)%Z /\ inject_Z k <= m /\ m < inject_Z k + 1.
Proof.
  intros Hm k.
  assert (Hn : (0 <= Qnum m)%Z).
  { unfold Qle in Hm. simpl in Hm. lia. }
  assert (Ek : k = Qfloor m).
  { subst k. destruct m as [a b]. simpl in *.
    apply Z.quot_div_nonneg; lia. }
  rewrite Ek. split; [|split].
  - destruct m as [a b]. simpl in *. apply Z.div_pos; lia.
  - apply Qfloor_le.
  - pose proof (Qlt_floor m) as H.
    rewrite inject_Z_plus in H. exact H.
Qed.

Lemma trailing_mean_nonneg (h : list Bar) :
  (20 <= length h)%nat ->
  Forall (fun b => (0 <= Volume b)%Z) h ->
  0 <= trailing_mean_volume h.
Proof.
  intros Hl Hv. unfold trailing_mean_volume, mean.
  assert (Hlen : length (skipn (length h - 20) (volumes h)) = 20%nat).
  { rewrite length_skipn. unfold volumes. rewrite length_map. lia. }
  rewrite Hlen. apply Qle_shift_div_l; [reflexivity|].
  rewrite Qmult_0_l. apply Qsum_nonneg, Forall_skipn_keep.
  unfold volumes. apply Forall_map.
  eapply Forall_impl; [|exact Hv]. intros b Hb. simpl.
  change 0 with (inject_Z 0). now rewrite <- Zle_Qle.
Qed.

(** X7.  With at least 20 days of history and no negative volume, the
    stored 20-day average volume is a non-negative whole number: the mean
    volume of the last 20 days with its fraction cut off. *)
Theorem avg_volume_is_truncated_mean vol (d : TickerData) :
  let h := history_30d d in
  (20 <= length h)%nat ->
  Forall (fun b => (0 <= Volume b)%Z) h ->
  exists k : Z,
    avg_volume_20d (get_all_screening_metrics vol (Returned d))
    = Some (inject_Z k)
    /\ (0 <= k)%Z
    /\ inject_Z k <= trailing_mean_volume h
    /\ trailing_mean_volume h < inject_Z k + 1.
Proof.
  intros h Hl Hv.
  destruct (bag_of_quote_full vol d) as (vm & pm & Evm & _ & E).
  rewrite E. cbn [avg_volume_20d]. fold h in Evm.
  rewrite (volume_metrics_exact h Hl) in Evm. inversion Evm. cbn [snd].
  destruct (truncation_of_nonneg _ (trailing_mean_nonneg h Hl Hv))
    as (K1 & K2 & K3).
  eexists. split; [reflexivity|]. repeat split; assumption.
Qed.

Lemma avg_volume_is_truncated_mean_witness :
  exists k : Z,
    avg_volume_20d
      (get_all_screening_metrics Examples.flat_volatility
         (Returned (Examples.quote Examples.twenty_five_days)))
    = Some (inject_Z k)
    /\ (0 <= k)%Z
    /\ inject_Z k
       <= trailing_mean_volume
            (history_30d (Examples.quote Examples.twenty_five_days))
    /\ trailing_mean_volume
         (history_30d (Examples.quote Examples.twenty_five_days))
       < inject_Z k + 1.
Proof.
  refine (avg_volume_is_truncated_mean Examples.flat_volatility
            (Examples.quote Examples.twenty_five_days) _ _).
  - simpl. lia.
  - apply Forall_forall. intros b Hb. simpl in Hb.
    repeat (destruct Hb as [<-|Hb]; [simpl; lia|]). destruct Hb.
Defined.

(** X8.  The stored volume ratio and price changes are within 0.005 of the
    exact quotients: with 20 days and a positive mean volume, of latest
    volume over mean volume; with 21 days and a positive earlier close, of
    the exact percentage change over 1, 5 and 20 trading days. *)
Theorem stored_metrics_within_half_a_cent vol (d : TickerData) :
  let h := history_30d d in
  let bag := get_all_screening_metrics vol (Returned d) in
  ((20 <= length h)%nat -> 0 < trailing_mean_volume h ->
   exists v, volume_ratio bag = Some v
             /\ - (1 # 200) <= v - latest_volume h / trailing_mean_volume h
             /\ v - latest_volume h / trailing_mean_volume h <= 1 # 200)
  /\ ((21 <= length h)%nat ->
      forall N change,
        (N, change) = (1%nat, change_1d bag)
        \/ (N, change) = (5%nat, change_5d bag)
        \/ (N, change) = (20%nat, change_20d bag) ->
        0 < close_days_ago N h ->
        exists v, change = Some v
                  /\ - (1 # 200) <= v - exact_change h N
                  /\ v - exact_change h N <= 1 # 200).
Proof.
  intros h bag.
  destruct (bag_of_quote_full vol d) as (vm & pm & Evm & Epm & E).
  subst bag. rewrite E. cbn [volume_ratio change_1d change_5d change_20d].
  fold h in Evm, Epm. split.
  - intros Hl Hpos. rewrite (volume_metrics_exact h Hl) in Evm.
    inversion Evm. cbn [fst].
    replace (Qle_bool (trailing_mean_volume h) 0) with false
      by (symmetry; order).
    cbn [negb]. eexists. split; [reflexivity|]. apply round2_error.
  - intros Hl N change HN Hpos.
    rewrite (price_change_metrics_long h Hl) in Epm.
    inversion Epm; subst pm; clear Epm. cbn [fst snd] in HN.
    unfold exact_change.
    destruct HN as [HN|[HN|HN]]; inversion HN; subst N change; clear HN;
      unfold pct_change;
      match goal with
      | |- context [Qle_bool ?a 0] =>
          replace (Qle_bool a 0) with false by (symmetry; order)
      end;
      cbn [negb]; eexists; (split; [reflexivity|]); apply round2_error.
Qed.

Lemma stored_metrics_within_half_a_cent_witness :
  exists v,
    volume_ratio (get_all_screening_metrics Examples.flat_volatility
                    (Returned (Examples.quote Examples.twenty_five_days)))
    = Some v
    /\ - (1 # 200)
       <= v - latest_volume
                (history_30d (Examples.quote Examples.twenty_five_days))
              / trailing_mean_volume
                  (history_30d (Examples.quote Examples.twenty_five_days))
    /\ v - latest_volume
             (history_30d (Examples.quote Examples.twenty_five_days))
           / trailing_mean_volume
               (history_30d (Examples.quote Examples.twenty_five_days))
       <= 1 # 200.
Proof.
  refine (proj1 (stored_metrics_within_half_a_cent Examples.flat_volatility
                   (Examples.quote Examples.twenty_five_days)) _ _).
  - simpl. lia.
  - reflexivity.
Defined.

Lemma Qsum_fillna (s : Series) :
  Qsum (dropna (fillna 0 s)) == contracts_traded s.
Proof.
  unfold contracts_traded.
  induction s as [|[v|] s IH]; simpl; [reflexivity| |].
  - now rewrite IH.
  - rewrite IH. apply Qplus_0_l.
Qed.

(** X9.  The two options metrics of a ticker are missing together or
    present together.  They are missing when the options calls raise or no
    expiry is listed.  With an expiry but no traded contract on the nearest
    chain (missing volumes counting as zero) they are present: the options
    proxy is 0 and the put/call proxy is the neutral 1. *)
Theorem options_metrics_cases vol (d : TickerData) :
  let bag := get_all_screening_metrics vol (Returned d) in
  (options_proxy bag = NaN <-> put_call_proxy bag = NaN)
  /\ (forall e, option_chains d = Raised e ->
        options_proxy bag = NaN /\ put_call_proxy bag = NaN)
  /\ (option_chains d = Returned [] ->
      options_proxy bag = NaN /\ put_call_proxy bag = NaN)
  /\ (forall chain rest,
        option_chains d = Returned (chain :: rest) ->
        exists o p,
          options_proxy bag = Some o /\ put_call_proxy bag = Some p
          /\ (contracts_traded (calls_volume chain)
              + contracts_traded (puts_volume chain) <= 0 ->
              o == 0 /\ p == 1)).
Proof.
  intros bag. destruct (bag_of_quote_full vol d) as (vm & pm & _ & _ & E).
  subst bag. rewrite E. cbn [options_proxy put_call_proxy].
  unfold options_metrics.
  destruct (option_chains d) as [[|chain rest]|e]; cbn [bind try_except].
  - cbn. repeat split; intros; try discriminate; try reflexivity.
  - set (total := Qsum (dropna (fillna 0 (calls_volume chain)))
                  + Qsum (dropna (fillna 0 (puts_volume chain)))).
    destruct (Qle_bool total 0) eqn:B; cbn.
    + split; [split; discriminate|]. split; [discriminate|].
      split; [discriminate|].
      intros c r Ec. inversion Ec; subst c r.
      do 2 eexists. split; [reflexivity|]. split; [reflexivity|].
      intros _. split; reflexivity.
    + split; [split; discriminate|]. split; [discriminate|].
      split; [discriminate|].
      intros c r Ec. inversion Ec; subst c r.
      do 2 eexists. split; [reflexivity|]. split; [reflexivity|].
      intros Hle. exfalso. subst total.
      rewrite !Qsum_fillna in B. q2p. lra.
  - cbn. repeat split; intros; try discriminate; try reflexivity.
Qed.

Lemma options_metrics_cases_witness :
  exists o p,
    options_proxy
      (get_all_screening_metrics Examples.flat_volatility
         (Returned (Examples.quote_with_chain Examples.ten_days
                      Examples.idle_chain))) = Some o
    /\ put_call_proxy
         (get_all_screening_metrics Examples.flat_volatility
            (Returned (Examples.quote_with_chain Examples.ten_days
                         Examples.idle_chain))) = Some p
    /\ (contracts_traded (calls_volume Examples.idle_chain)
        + contracts_traded (puts_volume Examples.idle_chain) <= 0 ->
        o == 0 /\ p == 1).
Proof.
  refine (proj2 (proj2 (proj2
            (options_metrics_cases Examples.flat_volatility
               (Examples.quote_with_chain Examples.ten_days
                  Examples.idle_chain))))
            Examples.idle_chain [] _).
  reflexivity.
Defined.

(** X10.  The collector writes exactly one row per surviving ticker, in the
    order of the filtered list, and drops none: a ticker whose provider
    call fails is written with every metric missing.  The other snapshots
    are left as they were. *)
Theorem collector_keeps_every_ticker vol market fs (tickers : list string) :
  data_dir fs = true ->
  filtered_csv fs = Some tickers ->
  exists fs' rows,
    add_all_screening_metrics vol market fs = Returned fs'
    /\ raw_csv fs' = Some rows
    /\ map Ticker rows = tickers
    /\ (forall t e, In t tickers -> market t = Raised e ->
          In (missing_row t) rows)
    /\ tickers_csv fs' = tickers_csv fs
    /\ filtered_csv fs' = filtered_csv fs
    /\ results_csv fs' = results_csv fs.
Proof.
  intros Hd Hf. unfold add_all_screening_metrics, path_exists.
  rewrite Hd, Hf. cbn [andb negb]. unfold write_raw, to_csv. rewrite Hd.
  do 2 eexists. split; [reflexivity|]. cbn.
  split; [reflexivity|]. split.
  - rewrite map_map. cbn. apply map_id.
  - split; [|repeat split; congruence].
    intros t e Hin He. apply in_map_iff. exists t. split; [|exact Hin].
    unfold metrics_row. rewrite He. reflexivity.
Qed.

Lemma collector_keeps_every_ticker_witness :
  exists fs' rows,
    add_all_screening_metrics Examples.flat_volatility Examples.market_of_A
      (Examples.with_filtered ["A"; "Z"]%string) = Returned fs'
    /\ raw_csv fs' = Some rows
    /\ map Ticker rows = ["A"; "Z"]%string
    /\ (forall t e, In t ["A"; "Z"]%string ->
          Examples.market_of_A t = Raised e -> In (missing_row t) rows)
    /\ tickers_csv fs'
       = tickers_csv (Examples.with_filtered ["A"; "Z"]%string)
    /\ filtered_csv fs'
       = filtered_csv (Examples.with_filtered ["A"; "Z"]%string)
    /\ results_csv fs'
       = results_csv (Examples.with_filtered ["A"; "Z"]%string).
Proof.
  apply (collector_keeps_every_ticker Examples.flat_volatility
           Examples.market_of_A (Examples.with_filtered ["A"; "Z"]%string)
           ["A"; "Z"]%string); reflexivity.
Defined.

(* ------------------------------------------------------------------ *)
(** ** Further properties: the ticker universe *)

Lemma column_In (df : Table) (c t : string) :
  In t (column df c) -> exists values, In (c, values) df /\ In t values.
Proof.
  unfold column. destruct (find _ df) as [[c' values]|] eqn:F;
    [|intros []].
  apply find_some in F. destruct F as [Hin Heq]. cbn in Heq.
  apply String.eqb_eq in Heq. subst c'. intros Ht. now exists values.
Qed.

(** X1.  Every ticker [get_sp500_tickers] returns is a value of a symbol
    column of the first table of the page: of the column Symbol when there
    is one, of the column Ticker symbol only when there is no Symbol
    column.  Later tables are never read. *)
Theorem tickers_come_from_symbol_column (listing : outcome (list Table)) t :
  In t (get_sp500_tickers listing) ->
  exists df rest col values,
    listing = Returned (df :: rest)
    /\ In (col, values) df /\ In t values
    /\ get_sp500_tickers listing = column df col
    /\ (col = "Symbol"%string
        \/ (col = "Ticker symbol"%string
            /\ has_column df "Symbol" = false)).
Proof.
  unfold get_sp500_tickers.
  destruct listing as [[|df rest]|e]; cbn; try tauto.
  destruct (has_column df "Symbol") eqn:H1; cbn.
  - intros Ht. destruct (column_In _ _ _ Ht) as [values [Hc Hv]].
    exists df, rest, "Symbol"%string, values. tauto.
  - destruct (has_column df "Ticker symbol") eqn:H2; cbn; [|tauto].
    intros Ht. destruct (column_In _ _ _ Ht) as [values [Hc Hv]].
    exists df, rest, "Ticker symbol"%string, values. tauto.
Qed.

Lemma tickers_come_from_symbol_column_witness :
  exists df rest col values,
    Examples.listing_with_symbols = Returned (df :: rest)
    /\ In (col, values) df /\ In "B"%string values
    /\ get_sp500_tickers Examples.listing_with_symbols = column df col
    /\ (col = "Symbol"%string
        \/ (col = "Ticker symbol"%string
            /\ has_column df "Symbol" = false)).
Proof.
  apply (tickers_come_from_symbol_column Examples.listing_with_symbols
           "B"%string).
  right. left. reflexivity.
Defined.

(** X2.  When the listing yields at least one ticker, the Universe Builder
    never raises, whether or not the data directory exists: afterwards the
    directory exists and the universe snapshot holds the tickers of the
    listing in their order, cut to the first [test_count] in test mode (so
    at most [test_count] of them); the other snapshots are untouched. *)
Theorem universe_snapshot_written listing test_mode test_count fs :
  get_sp500_tickers listing <> [] ->
  exists fs',
    create_dataframe_with_tickers listing test_mode test_count fs
    = Returned fs'
    /\ data_dir fs' = true
    /\ tickers_csv fs'
       = Some (universe test_mode test_count (get_sp500_tickers listing))
    /\ (test_mode = true ->
        (length (universe test_mode test_count (get_sp500_tickers listing))
         <= test_count)%nat)
    /\ filtered_csv fs' = filtered_csv fs
    /\ raw_csv fs' = raw_csv fs
    /\ results_csv fs' = results_csv fs.
Proof.
  intros Hne. unfold create_dataframe_with_tickers, universe.
  destruct (get_sp500_tickers listing) as [|t ts]; [congruence|].
  unfold write_tickers, to_csv.
  destruct (data_dir fs) eqn:Hd; cbn [makedirs data_dir]; rewrite ?Hd;
    eexists; (split; [reflexivity|]); cbn;
    (split; [reflexivity|]); (split; [reflexivity|]);
    (split; [|repeat split]);
    intros ->; apply firstn_le_length.
Qed.

Lemma universe_snapshot_written_witness :
  exists fs',
    create_dataframe_with_tickers Examples.listing_with_symbols true 2
      Examples.no_data_dir = Returned fs'
    /\ data_dir fs' = true
    /\ tickers_csv fs'
       = Some (universe true 2
                 (get_sp500_tickers Examples.listing_with_symbols))
    /\ (true = true ->
        (length (universe true 2
                   (get_sp500_tickers Examples.listing_with_symbols))
         <= 2)%nat)
    /\ filtered_csv fs' = filtered_csv Examples.no_data_dir
    /\ raw_csv fs' = raw_csv Examples.no_data_dir
    /\ results_csv fs' = results_csv Examples.no_data_dir.
Proof.
  apply (universe_snapshot_written Examples.listing_with_symbols true 2
           Examples.no_data_dir).
  discriminate.
Defined.

(* ------------------------------------------------------------------ *)
(** ** Further properties: the net-income filter *)

Lemma filter_subsequence {A} (f : A -> bool) (l : list A) :
  subsequence (filter f l) l.
Proof.
  induction l as [|x l IH]; simpl; [constructor|].
  destruct (f x); now constructor.
Qed.

Lemma filter_returns fin fs (tickers : list string) :
  data_dir fs = true ->
  tickers_csv fs = Some tickers ->
  filter_by_net_income fin fs
  = Returned {| data_dir := true; tickers_csv := Some tickers;
                filtered_csv := Some (filter (keeps fin) tickers);
                raw_csv := raw_csv fs; results_csv := results_csv fs |}.
Proof.
  intros Hd Ht. unfold filter_by_net_income, path_exists.
  rewrite Hd, Ht. cbn [andb negb]. unfold write_filtered, to_csv.
  rewrite Hd, Ht. reflexivity.
Qed.

(** X3.  The filter only removes tickers: the snapshot it writes lists the
    survivors in the order of the universe, without adding or repeating
    any, and it leaves the universe snapshot and the later snapshots as
    they were. *)
Theorem filter_keeps_order fin fs (tickers : list string) :
  data_dir fs = true ->
  tickers_csv fs = Some tickers ->
  exists fs' kept,
    filter_by_net_income fin fs = Returned fs'
    /\ filtered_csv fs' = Some kept
    /\ subsequence kept tickers
    /\ (NoDup tickers -> NoDup kept)
    /\ tickers_csv fs' = Some tickers
    /\ raw_csv fs' = raw_csv fs
    /\ results_csv fs' = results_csv fs.
Proof.
  intros Hd Ht. rewrite (filter_returns fin fs tickers Hd Ht).
  do 2 eexists. split; [reflexivity|]. cbn.
  split; [reflexivity|]. split; [apply filter_subsequence|].
  split; [apply NoDup_filter|]. repeat split.
Qed.

Lemma filter_keeps_order_witness :
  exists fs' kept,
    filter_by_net_income Examples.scenario_financials
      (Examples.with_tickers ["B"; "A"; "C"; "A"]%string) = Returned fs'
    /\ filtered_csv fs' = Some kept
    /\ subsequence kept ["B"; "A"; "C"; "A"]%string
    /\ (NoDup ["B"; "A"; "C"; "A"]%string -> NoDup kept)
    /\ tickers_csv fs' = Some ["B"; "A"; "C"; "A"]%string
    /\ raw_csv fs'
       = raw_csv (Examples.with_tickers ["B"; "A"; "C"; "A"]%string)
    /\ results_csv fs'
       = results_csv (Examples.with_tickers ["B"; "A"; "C"; "A"]%string).
Proof.
  apply (filter_keeps_order Examples.scenario_financials
           (Examples.with_tickers ["B"; "A"; "C"; "A"]%string)
           ["B"; "A"; "C"; "A"]%string); reflexivity.
Defined.

Lemma keeps_local fin fin' t : fin' t = fin t -> keeps fin' t = keeps fin t.
Proof. intros E. unfold keeps. now rewrite E. Qed.

(** X4.  A provider failure costs one ticker only.  A ticker whose
    financials cannot be fetched is dropped and the filter still returns;
    and whether a ticker survives depends on its own financials alone: two
    runs over the same universe whose providers agree on a ticker agree on
    keeping it, whatever the providers answer for the other tickers. *)
Theorem filter_isolates_provider_failures fin fin' fs
  (tickers : list string) :
  data_dir fs = true ->
  tickers_csv fs = Some tickers ->
  exists fs1 fs2 kept kept',
    filter_by_net_income fin fs = Returned fs1
    /\ filtered_csv fs1 = Some kept
    /\ filter_by_net_income fin' fs = Returned fs2
    /\ filtered_csv fs2 = Some kept'
    /\ (forall t e, fin t = Raised e -> ~ In t kept)
    /\ (forall t, fin' t = fin t -> (In t kept <-> In t kept')).
Proof.
  intros Hd Ht.
  rewrite (filter_returns fin fs tickers Hd Ht),
          (filter_returns fin' fs tickers Hd Ht).
  do 4 eexists. split; [reflexivity|]. split; [reflexivity|].
  split; [reflexivity|]. split; [reflexivity|]. split.
  - intros t e He Hin. apply filter_In in Hin. destruct Hin as [_ Hk].
    unfold keeps in Hk. rewrite He in Hk. discriminate.
  - intros t E. rewrite !filter_In, (keeps_local fin fin' t E). tauto.
Qed.

Lemma filter_isolates_provider_failures_witness :
  exists fs1 fs2 kept kept',
    filter_by_net_income Examples.scenario_financials
      (Examples.with_tickers ["A"; "Z"]%string) = Returned fs1
    /\ filtered_csv fs1 = Some kept
    /\ filter_by_net_income (fun _ => Raised ProviderError)
         (Examples.with_tickers ["A"; "Z"]%string) = Returned fs2
    /\ filtered_csv fs2 = Some kept'
    /\ (forall t e, Examples.scenario_financials t = Raised e ->
          ~ In t kept)
    /\ (forall t,
          Raised ProviderError = Examples.scenario_financials t ->
          (In t kept <-> In t kept')).
Proof.
  apply (filter_isolates_provider_failures Examples.scenario_financials
           (fun _ => Raised ProviderError)
           (Examples.with_tickers ["A"; "Z"]%string) ["A"; "Z"]%string);
    reflexivity.
Defined.

(** X5.  Without a universe snapshot the filter does not fail if the data
    directory is there: it writes an empty filtered snapshot and touches
    nothing else.  Without the data directory its write raises OSError. *)
Theorem filter_without_universe fin fs :
  (data_dir fs = true -> tickers_csv fs = None ->
   exists fs',
     filter_by_net_income fin fs = Returned fs'
     /\ filtered_csv fs' = Some []
     /\ tickers_csv fs' = None
     /\ raw_csv fs' = raw_csv fs
     /\ results_csv fs' = results_csv fs)
  /\ (data_dir fs = false -> filter_by_net_income fin fs = Raised OSError).
Proof.
  unfold filter_by_net_income, path_exists, write_filtered, to_csv. split.
  - intros Hd Ht. rewrite Hd, Ht. cbn.
    eexists. split; [reflexivity|]. cbn. repeat split.
  - intros Hd. rewrite Hd. reflexivity.
Qed.

Lemma filter_without_universe_witness :
  (exists fs',
      filter_by_net_income Examples.scenario_financials
        Examples.empty_data_dir = Returned fs'
      /\ filtered_csv fs' = Some []
      /\ tickers_csv fs' = None
      /\ raw_csv fs' = raw_csv Examples.empty_data_dir
      /\ results_csv fs' = results_csv Examples.empty_data_dir)
  /\ filter_by_net_income Examples.scenario_financials Examples.no_data_dir
     = Raised OSError.
Proof.
  split.
  - apply (proj1 (filter_without_universe Examples.scenario_financials
                    Examples.empty_data_dir)); reflexivity.
  - apply (proj2 (filter_without_universe Examples.scenario_financials
                    Examples.no_data_dir)); reflexivity.
Defined.

(* ------------------------------------------------------------------ *)
(** ** Further properties: percentile normalisation *)

(** Whatever comes before [x] or ties with it comes before anything that
    [x] comes strictly before. *)
Lemma count_dups_before asc x y (V : list Q) :
  strictly_before asc x y = true ->
  (count_before asc x V + dups x V <= count_before asc y V)%nat.
Proof.
  intros Hxy. induction V as [|z V IH]; simpl; [lia|].
  destruct (strictly_before asc z x) eqn:B1, (Qeq_bool z x) eqn:B2,
           (strictly_before asc z y) eqn:B3; try lia; exfalso; order.
Qed.

Lemma average_rank_strict asc x y (V : list Q) :
  In x V -> In y V -> strictly_before asc x y = true ->
  average_rank (sort (before asc) V) x < average_rank (sort (before asc) V) y.
Proof.
  intros Hx Hy Hxy.
  pose proof (dups_pos x V Hx) as Dx. pose proof (dups_pos y V Hy) as Dy.
  rewrite !average_rank_counts by assumption.
  pose proof (Qof_le _ _ (count_dups_before asc x y V Hxy)) as H.
  rewrite Qof_add in H.
  apply Qof_le in Dx, Dy. change (Qof 1) with 1 in Dx, Dy.
  unfold Qdiv. change (/ 2) with (1 # 2). lra.
Qed.

Lemma average_rank_Qeq x y (l : list Q) :
  x == y -> average_rank l x = average_rank l y.
Proof.
  intros E. unfold average_rank.
  now rewrite (rank_sum_Qeq _ _ _ _ E), (dups_Qeq _ _ _ E).
Qed.

Lemma normalize_score_NaN (values : Series) i :
  nth_error values i = Some NaN ->
  nth_error (normalize_score values) i = Some NaN.
Proof.
  intros H. unfold normalize_score, smul, rank, Series, cell in *. cbv zeta.
  rewrite !nth_error_map, H. reflexivity.
Qed.

Lemma valid_count_pos (values : Series) i x :
  nth_error values i = Some (Some x) -> 0 < Qof (length (dropna values)).
Proof.
  intros H. apply Qof_pos.
  assert (Hin : In x (dropna values))
    by (apply dropna_In; eapply nth_error_In, H).
  destruct (dropna values); [destruct Hin|simpl; lia].
Qed.

(** X11.  Normalising a column keeps its length and its missing entries:
    a missing value stays missing (and is not counted), and every number
    gets a score that is a number in (0, 100]. *)
Theorem normalize_score_shape (values : Series) :
  length (normalize_score values) = length values
  /\ forall i,
      (nth_error values i = Some NaN ->
       nth_error (normalize_score values) i = Some NaN)
      /\ (forall x, nth_error values i = Some (Some x) ->
            exists v, nth_error (normalize_score values) i = Some (Some v)
                      /\ 0 < v /\ v <= 100).
Proof.
  split.
  - unfold normalize_score, smul, rank. cbv zeta. now rewrite !length_map.
  - intros i. split; [apply normalize_score_NaN|].
    intros x H. eexists. split; [apply normalize_score_nth, H|].
    rewrite sort_length.
    assert (Hin : In x (dropna values))
      by (apply dropna_In; eapply nth_error_In, H).
    destruct (average_rank_bounds true _ _ Hin) as [H1 H2].
    pose proof (valid_count_pos _ _ _ H) as Hn.
    set (a := average_rank _ _) in *. set (n := Qof _) in *.
    assert (0 < a / n) by (apply Qlt_shift_div_l; lra).
    assert (a / n <= 1) by (apply Qle_shift_div_r; lra).
    split; lra.
Qed.

Lemma normalize_score_shape_witness :
  exists v,
    nth_error (normalize_score [Some 3; NaN; Some 1]) 2 = Some (Some v)
    /\ 0 < v /\ v <= 100.
Proof.
  apply (proj2 (proj2 (normalize_score_shape [Some 3; NaN; Some 1]) 2%nat)
           1).
  reflexivity.
Defined.

(** X12.  Normalisation keeps the order of the raw values: of two numbers
    in a column, the strictly larger one gets the strictly larger score. *)
Theorem normalize_score_monotone (values : Series) (i j : nat) (x y : Q) :
  nth_error values i = Some (Some x) ->
  nth_error values j = Some (Some y) ->
  x < y ->
  exists a b,
    nth_error (normalize_score values) i = Some (Some a)
    /\ nth_error (normalize_score values) j = Some (Some b)
    /\ a < b.
Proof.
  intros Hi Hj Hxy. do 2 eexists.
  split; [apply normalize_score_nth, Hi|].
  split; [apply normalize_score_nth, Hj|].
  assert (Hx : In x (dropna values))
    by (apply dropna_In; eapply nth_error_In, Hi).
  assert (Hy : In y (dropna values))
    by (apply dropna_In; eapply nth_error_In, Hj).
  assert (Hs : strictly_before true x y = true) by order.
  pose proof (average_rank_strict true x y _ Hx Hy Hs) as Hr.
  rewrite sort_length. pose proof (valid_count_pos _ _ _ Hi) as Hn.
  apply Qmult_lt_compat_r; [reflexivity|].
  unfold Qdiv. apply Qmult_lt_compat_r; [|exact Hr].
  now apply Qinv_lt_0_compat.
Qed.

Lemma normalize_score_monotone_witness :
  exists a b,
    nth_error (normalize_score [Some 3; NaN; Some 1]) 2 = Some (Some a)
    /\ nth_error (normalize_score [Some 3; NaN; Some 1]) 0 = Some (Some b)
    /\ a < b.
Proof.
  apply (normalize_score_monotone [Some 3; NaN; Some 1] 2 0 1 3);
    reflexivity.
Defined.

Lemma all_tied_counts x (V : list Q) :
  Forall (fun v => v == x) V ->
  count_before true x V = 0%nat /\ dups x V = length V.
Proof.
  induction 1 as [|v V Hv _ [IH1 IH2]]; simpl; [split; reflexivity|].
  rewrite IH1, IH2.
  replace (strictly_before true v x) with false by (symmetry; order).
  replace (Qeq_bool v x) with true by (symmetry; order).
  split; reflexivity.
Qed.

(** X13.  A column whose numbers are all equal gives every one of them the
    same score, 50 * (N + 1) / N for N numbers: a metric that is missing
    for every ticker, and so imputed alike, separates no ticker from
    another. *)
Theorem all_tied_share_one_score (values : Series) (i : nat) (x : Q) :
  nth_error values i = Some (Some x) ->
  Forall (fun v => v == x) (dropna values) ->
  exists s,
    nth_error (normalize_score values) i = Some (Some s)
    /\ s == 50 * (Qof (length (dropna values)) + 1)
            / Qof (length (dropna values)).
Proof.
  intros Hi Hall. eexists. split; [apply normalize_score_nth, Hi|].
  destruct (all_tied_counts x _ Hall) as [Hc Hd].
  pose proof (valid_count_pos _ _ _ Hi) as Hn.
  assert (H1 : (1 <= dups x (dropna values))%nat).
  { apply dups_pos, dropna_In. eapply nth_error_In, Hi. }
  rewrite sort_length, average_rank_counts by exact H1.
  rewrite Hc, Hd. change (Qof 0) with 0. field. lra.
Qed.

Lemma all_tied_share_one_score_witness :
  exists s,
    nth_error (normalize_score (fillna 0 [NaN; NaN; NaN])) 1
    = Some (Some s)
    /\ s == 50 * (Qof (length (dropna (fillna 0 [NaN; NaN; NaN]))) + 1)
            / Qof (length (dropna (fillna 0 [NaN; NaN; NaN]))).
Proof.
  apply (all_tied_share_one_score (fillna 0 [NaN; NaN; NaN]) 1 0).
  - reflexivity.
  - repeat constructor.
Defined.

(** *** The scores of a column add up to 50 (N + 1) *)

Lemma list_sum_map_add {A} (f g : A -> nat) (l : list A) :
  list_sum (map (fun x => (f x + g x)%nat) l)
  = (list_sum (map f l) + list_sum (map g l))%nat.
Proof. induction l as [|x l IH]; simpl; lia. Qed.

(** Every entry of [B] comes before [a], ties with it, or comes after. *)
Lemma three_way_count asc a (B : list Q) :
  (count_before asc a B + dups a B
   + list_sum (map (fun y => if strictly_before asc a y then 1 else 0) B)
   = length B)%nat.
Proof.
  induction B as [|z B IH]; simpl; [reflexivity|].
  destruct (strictly_before asc z a) eqn:B1, (Qeq_bool z a) eqn:B2,
           (strictly_before asc a z) eqn:B3; try lia; exfalso; order.
Qed.

(** Counting the ordered pairs of [A] x [B] by which side comes first. *)
Lemma pair_count asc (A B : list Q) :
  (list_sum (map (fun x => (count_before asc x B + dups x B)%nat) A)
   + list_sum (map (fun y => count_before asc y A) B)
   = length A * length B)%nat.
Proof.
  induction A as [|a A IH].
  - simpl. induction B as [|b B IHB]; simpl; lia.
  - cbn [map list_sum length count_before].
    rewrite (list_sum_map_add
               (fun y => if strictly_before asc a y then 1%nat else 0%nat)
               (fun y => count_before asc y A) B).
    pose proof (three_way_count asc a B).
    unfold list_sum in *. cbn [fold_right]. lia.
Qed.

Lemma rank_total asc (V : list Q) :
  list_sum (map (fun x => (2 * count_before asc x V + dups x V)%nat) V)
  = (length V * length V)%nat.
Proof.
  pose proof (pair_count asc V V) as H.
  rewrite <- H.
  rewrite <- (list_sum_map_add
                (fun x => (count_before asc x V + dups x V)%nat)
                (fun x => count_before asc x V) V).
  f_equal. apply map_ext. intros x. lia.
Qed.

Lemma Qsum_map_ext_in {A} (f g : A -> Q) (l : list A) :
  (forall x, In x l -> f x == g x) -> Qsum (map f l) == Qsum (map g l).
Proof.
  induction l as [|a l IH]; intros H; simpl; [reflexivity|].
  rewrite (H a) by now left. rewrite IH; [reflexivity|].
  intros x Hx. apply H. now right.
Qed.

Lemma Qsum_scaled_counts {A} (h : A -> nat) (c : Q) (l : list A) :
  Qsum (map (fun x => (Qof (h x) + 1) * c) l)
  == (Qof (list_sum (map h l)) + Qof (length l)) * c.
Proof.
  induction l as [|a l IH]; simpl.
  - change (Qof 0) with 0. ring.
  - rewrite IH, Qof_add, Qof_S. ring.
Qed.

Lemma dropna_normalize_score (values : Series) :
  dropna (normalize_score values)
  = map (fun x =>
           average_rank (sort (before true) (dropna values)) x
           / Qof (length (sort (before true) (dropna values))) * 100)
        (dropna values).
Proof.
  unfold normalize_score, smul, rank. cbv zeta.
  generalize (sort (before true) (dropna values)). intros S.
  induction values as [|[v|] values IH]; simpl; [reflexivity| |exact IH].
  now rewrite IH.
Qed.

(** X14.  Ties or not, the scores of a column always add up to the same
    total: for a column with N numbers (N at least 1) the normalised scores
    of its numbers sum to 50 * (N + 1), so their mean is 50 * (N + 1) / N
    whatever the raw values are. *)
Theorem normalize_score_total (values : Series) :
  dropna values <> [] ->
  Qsum (dropna (normalize_score values))
  == 50 * (Qof (length (dropna values)) + 1).
Proof.
  intros Hne. rewrite dropna_normalize_score, sort_length.
  set (V := dropna values) in *.
  assert (Hn : 0 < Qof (length V)).
  { apply Qof_pos. destruct V; [congruence|simpl; lia]. }
  rewrite (Qsum_map_ext_in _
             (fun x =>
                (Qof (2 * count_before true x V + dups x V)%nat + 1)
                * (50 / Qof (length V)))).
  - rewrite Qsum_scaled_counts, rank_total, Qof_mul. field. lra.
  - intros x Hx. rewrite average_rank_counts by now apply dups_pos.
    rewrite Qof_add, Qof_mul. change (Qof 2) with 2. field. lra.
Qed.

Lemma normalize_score_total_witness :
  Qsum (dropna (normalize_score [Some 3; NaN; Some 1; Some 3]))
  == 50 * (Qof (length (dropna [Some 3; NaN; Some 1; Some 3])) + 1).
Proof.
  apply (normalize_score_total [Some 3; NaN; Some 1; Some 3]).
  discriminate.
Defined.

(* ------------------------------------------------------------------ *)
(** ** Further properties: the composite scorer *)

Lemma count_before_shift asc k x (l : list Q) :
  count_before asc (x - k) (map (fun v => v - k) l) = count_before asc x l.
Proof.
  induction l as [|z l IH]; simpl; [reflexivity|]. rewrite IH. f_equal.
  destruct (strictly_before asc z x) eqn:B1,
           (strictly_before asc (z - k) (x - k)) eqn:B2;
    try reflexivity; exfalso; order.
Qed.

Lemma dups_shift k x (l : list Q) :
  dups (x - k) (map (fun v => v - k) l) = dups x l.
Proof.
  induction l as [|z l IH]; simpl; [reflexivity|]. rewrite IH. f_equal.
  destruct (Qeq_bool z x) eqn:B1, (Qeq_bool (z - k) (x - k)) eqn:B2;
    try reflexivity; exfalso; order.
Qed.

(** The average rank is a function of the two counts. *)
Lemma average_rank_by_counts asc x x' (V V' : list Q) :
  dups x V = dups x' V' ->
  count_before asc x V = count_before asc x' V' ->
  average_rank (sort (before asc) V) x
  = average_rank (sort (before asc) V') x'.
Proof.
  intros Hd Hc. unfold average_rank.
  pose proof (rank_sum_counts asc x V) as H.
  pose proof (rank_sum_counts asc x' V') as H'.
  rewrite !dups_sort. rewrite <- Hd, <- Hc in H'.
  rewrite <- Hd. f_equal. f_equal. lia.
Qed.

Lemma relative_strength_pscore spy (df : list RawRow) r :
  pscore (relative_strength spy) df r
  = pscore (filled 0 Price_Change_20d) df r.
Proof.
  unfold pscore. rewrite !sort_length, !length_map.
  replace (map (relative_strength spy) df)
    with (map (fun v => v - spy) (map (filled 0 Price_Change_20d) df))
    by (rewrite map_map; reflexivity).
  unfold relative_strength at 1.
  rewrite (average_rank_by_counts true _ (filled 0 Price_Change_20d r)
             _ (map (filled 0 Price_Change_20d) df));
    [reflexivity|apply dups_shift|apply count_before_shift].
Qed.

Lemma composite_any_benchmark w spy spy' (df : list RawRow) r :
  composite w spy df r = composite w spy' df r.
Proof.
  unfold composite. now rewrite !relative_strength_pscore.
Qed.

(** X15.  In exact arithmetic a finite benchmark return changes no score.
    Subtracting the same number from every 20-day change leaves their order
    as it is, so the relative-strength score of a ticker is the percentile
    of its 20-day change, the scored table is the same for any two finite
    benchmark values, and two runs whose benchmark is finite (the fallback,
    or a non-zero close 20 days back) write the same results. *)
Theorem benchmark_changes_no_score w :
  (forall (spy : Q) df r,
      Relative_Strength_Score (score_row w spy df r)
      = Some (pscore (filled 0 Price_Change_20d) df r))
  /\ (forall (spy spy' : Q) df,
        score_table w spy df = score_table w spy' df)
  /\ (forall spy_history spy_history' fs,
        benchmark_finite spy_history ->
        benchmark_finite spy_history' ->
        calculate_screening_scores_with w spy_history fs
        = calculate_screening_scores_with w spy_history' fs).
Proof.
  assert (HT : forall spy spy' df,
             score_table w spy df = score_table w spy' df).
  { intros spy spy' df. rewrite !score_table_rows. apply map_ext.
    intros r. unfold score_row.
    rewrite !relative_strength_pscore.
    rewrite (composite_any_benchmark w spy spy' df r).
    rewrite (map_ext _ _ (composite_any_benchmark w spy spy' df)).
    reflexivity. }
  split; [|split].
  - intros spy df r. cbn. now rewrite relative_strength_pscore.
  - exact HT.
  - intros h h' fs _ _. unfold calculate_screening_scores_with.
    now rewrite (HT (benchmark_return h) (benchmark_return h')).
Qed.

Lemma benchmark_changes_no_score_witness :
  calculate_screening_scores_with SCREENING_WEIGHTS (Raised ProviderError)
    (Examples.with_raw Examples.snapshot)
  = calculate_screening_scores_with SCREENING_WEIGHTS
      (Returned Examples.twenty_five_days)
      (Examples.with_raw Examples.snapshot).
Proof.
  refine (proj2 (proj2 (benchmark_changes_no_score SCREENING_WEIGHTS))
            (Raised ProviderError) (Returned Examples.twenty_five_days)
            (Examples.with_raw Examples.snapshot) _ _).
  - exact I.
  - right. discriminate.
Defined.

(** X16.  The benchmark return never stops the stage: it is the fallback
    2.0 when the fetch raises or brings fewer than 21 days, and otherwise
    (the earlier close being positive) the percentage change of the latest
    close against the close 20 trading days before. *)
Theorem benchmark_return_cases (spy : outcome (list Bar)) :
  (forall e, spy = Raised e -> benchmark_return spy = 2.0)
  /\ (forall h, spy = Returned h -> (length h < 21)%nat ->
        benchmark_return spy = 2.0)
  /\ (forall h, spy = Returned h -> (21 <= length h)%nat ->
        0 < close_days_ago 20 h ->
        benchmark_return spy = exact_change h 20).
Proof.
  unfold benchmark_return. split; [|split].
  - intros e ->. reflexivity.
  - intros h -> H. cbn [bind try_except].
    assert (Hl : length (closes h) = length h) by apply length_map.
    destruct (Nat.eq_dec (length h) 0) as [E|E].
    + unfold iloc_neg at 1. rewrite Hl, E. reflexivity.
    + rewrite (iloc_neg_last _ 0) by lia. cbn [bind].
      unfold iloc_neg. rewrite Hl.
      replace (Nat.leb 21 (length h)) with false
        by (symmetry; apply Nat.leb_gt; exact H).
      reflexivity.
  - intros h -> H _. cbn [bind try_except].
    assert (Hl : length (closes h) = length h) by apply length_map.
    rewrite (iloc_neg_last _ 0) by lia. cbn [bind].
    rewrite (iloc_neg_nth _ _ 0) by lia. cbn [bind try_except].
    unfold exact_change, close_days_ago, latest_close. rewrite Hl.
    replace (length h - 1 - 20)%nat with (length h - 21)%nat by lia.
    reflexivity.
Qed.

Lemma benchmark_return_cases_witness :
  benchmark_return (Returned Examples.ten_days) = 2.0
  /\ benchmark_return (Returned Examples.twenty_five_days)
     = exact_change Examples.twenty_five_days 20.
Proof.
  split.
  - apply (proj1 (proj2 (benchmark_return_cases
                           (Returned Examples.ten_days)))
             Examples.ten_days); [reflexivity|simpl; lia].
  - apply (proj2 (proj2 (benchmark_return_cases
                           (Returned Examples.twenty_five_days)))
             Examples.twenty_five_days);
      [reflexivity|simpl; lia|reflexivity].
Defined.







(** X18.  The rank follows the composite score: of two scored rows, the one
    with the strictly higher composite score has the strictly smaller rank,
    and rows with equal composite scores have the same rank. *)
Theorem rank_follows_composite w spy (df : list RawRow) (a b : ScoredRow)
  (ca cb : Q) :
  In a (score_table w spy df) ->
  In b (score_table w spy df) ->
  Composite_Score a = Some ca ->
  Composite_Score b = Some cb ->
  exists ra rb,
    Rank a = Some ra /\ Rank b = Some rb
    /\ (cb < ca -> ra < rb)
    /\ (ca == cb -> ra = rb).
Proof.
  rewrite score_table_rows. intros Ha Hb.
  apply in_map_iff in Ha, Hb.
  destruct Ha as [r1 [<- H1]], Hb as [r2 [<- H2]]. cbn.
  intros E1 E2. inversion E1; subst ca. inversion E2; subst cb.
  do 2 eexists. split; [reflexivity|]. split; [reflexivity|]. split.
  - intros Hlt. apply average_rank_strict.
    + now apply in_map.
    + now apply in_map.
    + order.
  - intros E. now apply average_rank_Qeq.
Qed.

Lemma rank_follows_composite_witness :
  exists ra rb,
    Rank (score_row SCREENING_WEIGHTS 2 Examples.snapshot
            (Examples.row "CCC" (Some 3))) = Some ra
    /\ Rank (score_row SCREENING_WEIGHTS 2 Examples.snapshot
               (Examples.row "BBB" NaN)) = Some rb
    /\ (composite SCREENING_WEIGHTS 2 Examples.snapshot
          (Examples.row "BBB" NaN)
        < composite SCREENING_WEIGHTS 2 Examples.snapshot
            (Examples.row "CCC" (Some 3)) -> ra < rb)
    /\ (composite SCREENING_WEIGHTS 2 Examples.snapshot
          (Examples.row "CCC" (Some 3))
        == composite SCREENING_WEIGHTS 2 Examples.snapshot
             (Examples.row "BBB" NaN) -> ra = rb).
Proof.
  apply (rank_follows_composite SCREENING_WEIGHTS 2 Examples.snapshot
           (score_row SCREENING_WEIGHTS 2 Examples.snapshot
              (Examples.row "CCC" (Some 3)))
           (score_row SCREENING_WEIGHTS 2 Examples.snapshot
              (Examples.row "BBB" NaN))).
  - rewrite score_table_rows. right. right. left. reflexivity.
  - rewrite score_table_rows. right. left. reflexivity.
  - reflexivity.
  - reflexivity.
Defined.

Lemma pscore_single (g : RawRow -> Q) r : pscore g [r] r == 100.
Proof.
  unfold pscore, average_rank. cbn. rewrite Qeq_bool_refl. reflexivity.
Qed.

Lemma rank_single asc x : average_rank (sort (before asc) [x]) x == 1.
Proof.
  unfold average_rank. cbn. rewrite Qeq_bool_refl. reflexivity.
Qed.

(** X19.  A snapshot with a single ticker gives it 100 for each of the six
    sub-scores, rank 1, and 100 times the sum of the weights as composite
    score: 100 under the configured weights. *)
Theorem single_ticker_scores w spy (r : RawRow) :
  exists sr v p s h o q c k,
    score_table w spy [r] = [sr]
    /\ raw sr = r
    /\ scores sr
       = [Some v; Some p; Some s; Some h; Some o; Some q; Some c; Some k]
    /\ v == 100 /\ p == 100 /\ s == 100 /\ h == 100 /\ o == 100
    /\ q == 100
    /\ c == 100 * weight_sum w
    /\ (weight_sum w == 1 -> c == 100)
    /\ k == 1.
Proof.
  rewrite score_table_rows. do 9 eexists.
  split; [reflexivity|]. split; [reflexivity|]. split; [reflexivity|].
  assert (Hc : composite w spy [r] r == 100 * weight_sum w).
  { unfold composite, options_composite, squeeze_composite, weight_sum.
    rewrite !pscore_single. ring. }
  unfold options_composite, squeeze_composite.
  repeat split; rewrite ?pscore_single; try reflexivity.
  - exact Hc.
  - intros H1. rewrite Hc, H1. reflexivity.
  - cbn [map]. apply rank_single.
Qed.

Lemma single_ticker_scores_witness :
  exists sr v p s h o q c k,
    score_table SCREENING_WEIGHTS 2 [Examples.row "AAA" (Some 1.5)] = [sr]
    /\ raw sr = Examples.row "AAA" (Some 1.5)
    /\ scores sr
       = [Some v; Some p; Some s; Some h; Some o; Some q; Some c; Some k]
    /\ v == 100 /\ p == 100 /\ s == 100 /\ h == 100 /\ o == 100
    /\ q == 100
    /\ c == 100 * weight_sum SCREENING_WEIGHTS
    /\ (weight_sum SCREENING_WEIGHTS == 1 -> c == 100)
    /\ k == 1.
Proof.
  exact (single_ticker_scores SCREENING_WEIGHTS 2
           (Examples.row "AAA" (Some 1.5))).
Defined.

(* ------------------------------------------------------------------ *)
(** ** Further properties: the whole run *)

Lemma create_returns listing test_mode test_count fs t ts :
  get_sp500_tickers listing = t :: ts ->
  create_dataframe_with_tickers listing test_mode test_count fs
  = Returned {| data_dir := true;
                tickers_csv := Some (universe test_mode test_count (t :: ts));
                filtered_csv := filtered_csv fs;
                raw_csv := raw_csv fs;
                results_csv := results_csv fs |}.
Proof.
  intros H. unfold create_dataframe_with_tickers, universe. rewrite H.
  unfold write_tickers, to_csv.
  destruct (data_dir fs) eqn:Hd; cbn; rewrite ?Hd; reflexivity.
Qed.

Lemma collector_returns vol market fs (tickers : list string) :
  data_dir fs = true ->
  filtered_csv fs = Some tickers ->
  add_all_screening_metrics vol market fs
  = Returned {| data_dir := true;
                tickers_csv := tickers_csv fs;
                filtered_csv := Some tickers;
                raw_csv := Some (map (metrics_row vol market) tickers);
                results_csv := results_csv fs |}.
Proof.
  intros Hd Hf. unfold add_all_screening_metrics, path_exists.
  rewrite Hd, Hf. cbn [andb negb]. unfold write_raw, to_csv.
  rewrite Hd, Hf. reflexivity.
Qed.

Lemma scorer_returns w spy fs (df : list RawRow) :
  data_dir fs = true ->
  raw_csv fs = Some df ->
  calculate_screening_scores_with w spy fs
  = Returned {| data_dir := true;
                tickers_csv := tickers_csv fs;
                filtered_csv := filtered_csv fs;
                raw_csv := Some df;
                results_csv :=
                  Some (sort composite_before
                          (score_table w (benchmark_return spy) df)) |}.
Proof.
  intros Hd Hr. unfold calculate_screening_scores_with, path_exists.
  rewrite Hd, Hr. cbn [andb negb]. unfold write_results, to_csv.
  rewrite Hd, Hr. reflexivity.
Qed.

Lemma metrics_rows_tickers vol market (tickers : list string) :
  map Ticker (map (metrics_row vol market) tickers) = tickers.
Proof. rewrite map_map. cbn. apply map_id. Qed.

Lemma sorted_results_tickers w spy (df : list RawRow) :
  Permutation
    (map ticker_of (sort composite_before (score_table w spy df)))
    (map Ticker df).
Proof.
  rewrite (Permutation_map ticker_of
             (sort_perm composite_before (score_table w spy df))).
  rewrite score_table_rows, map_map. cbn. reflexivity.
Qed.

(** X20.  When the listing yields at least one ticker, a run goes through
    all four stages without raising, from any state of the data directory,
    and its snapshots fit together: the universe is the listing (cut to
    [test_count] in test mode), the filtered snapshot is the universe
    restricted to the tickers the net-income rule keeps, the raw snapshot
    has one row for each of those, and the results rank exactly those
    tickers, each once. *)
Theorem run_screens_the_survivors env test_mode test_count fs :
  get_sp500_tickers (read_html env) <> [] ->
  let U := universe test_mode test_count
             (get_sp500_tickers (read_html env)) in
  let kept := filter (keeps (financials env)) U in
  exists fs' raws rows,
    main env test_mode test_count fs = Returned fs'
    /\ data_dir fs' = true
    /\ tickers_csv fs' = Some U
    /\ filtered_csv fs' = Some kept
    /\ raw_csv fs' = Some raws /\ map Ticker raws = kept
    /\ results_csv fs' = Some rows
    /\ Permutation (map ticker_of rows) kept.
Proof.
  intros Hne U kept. subst U kept.
  destruct (get_sp500_tickers (read_html env)) as [|t ts] eqn:E;
    [congruence|].
  unfold main. rewrite (create_returns _ _ _ _ t ts E). cbn [bind].
  rewrite (filter_returns _ _ (universe test_mode test_count (t :: ts)))
    by reflexivity.
  cbn [bind].
  rewrite (collector_returns _ _ _
             (filter (keeps (financials env))
                (universe test_mode test_count (t :: ts))))
    by reflexivity.
  cbn [bind]. unfold calculate_screening_scores.
  rewrite (scorer_returns _ _ _
             (map (metrics_row (log_return_volatility env) (market env))
                (filter (keeps (financials env))
                   (universe test_mode test_count (t :: ts)))))
    by reflexivity.
  do 3 eexists. split; [reflexivity|]. cbn.
  split; [reflexivity|]. split; [reflexivity|]. split; [reflexivity|].
  split; [reflexivity|]. split; [apply metrics_rows_tickers|].
  split; [reflexivity|].
  rewrite sorted_results_tickers. now rewrite metrics_rows_tickers.
Qed.

Lemma run_screens_the_survivors_witness :
  exists fs' raws rows,
    main Examples.scenario_run false 10 Examples.no_data_dir = Returned fs'
    /\ data_dir fs' = true
    /\ tickers_csv fs'
       = Some (universe false 10
                 (get_sp500_tickers (read_html Examples.scenario_run)))
    /\ filtered_csv fs'
       = Some (filter (keeps (financials Examples.scenario_run))
                 (universe false 10
                    (get_sp500_tickers (read_html Examples.scenario_run))))
    /\ raw_csv fs' = Some raws
    /\ map Ticker raws
       = filter (keeps (financials Examples.scenario_run))
           (universe false 10
              (get_sp500_tickers (read_html Examples.scenario_run)))
    /\ results_csv fs' = Some rows
    /\ Permutation (map ticker_of rows)
         (filter (keeps (financials Examples.scenario_run))
            (universe false 10
               (get_sp500_tickers (read_html Examples.scenario_run)))).
Proof.
  refine (run_screens_the_survivors Examples.scenario_run false 10
            Examples.no_data_dir _).
  discriminate.
Defined.

(** The end-to-end scenario: of A, B and C only A is ranked, with rank 1. *)
Lemma scenario_ranks_A_only :
  exists fs' sr,
    main Examples.scenario_run false 10 Examples.no_data_dir = Returned fs'
    /\ results_csv fs' = Some [sr]
    /\ ticker_of sr = "A"%string
    /\ exists k, Rank sr = Some k /\ k == 1.
Proof.
  do 2 eexists. split; [vm_compute; reflexivity|].
  split; [reflexivity|]. split; [reflexivity|].
  eexists. split; reflexivity.
Qed.
